(** * Credit Card Analyzer: a shallow embedding of [src/app.py]

    The Streamlit front end ([process_card_analysis], [card_analysis_page],
    [database_query_page]) is embedded from the source.  The three services it
    imports ([services.credit_card_service], [services.blob_service],
    [services.data_base]) are not part of the source tree: the blob upload and
    the document extraction are external collaborators and are taken as
    parameters, the validation rules, the record store and the query gateway
    are modelled from the specification and marked as such. *)

From Stdlib Require Import ZArith Ascii String.
From stdpp Require Import base list strings gmap pretty.

Local Open Scope Z_scope.

(** ** Characters and digit strings *)

Definition chars (s : string) : list ascii := list_ascii_of_string s.
Definition text (l : list ascii) : string := string_of_list_ascii l.

Definition code (c : ascii) : Z := Z.of_nat (nat_of_ascii c).

Definition is_digit (c : ascii) : bool := (48 <=? code c) && (code c <=? 57).

Definition digit_value (c : ascii) : Z := code c - 48.

Definition is_digit_string (s : string) : bool := forallb is_digit (chars s).

Definition digits_of (s : string) : list Z := digit_value <$> chars s.

Definition sumZ (l : list Z) : Z := foldr Z.add 0 l.

(** A decimal digit. *)
Definition decimal (d : Z) : Prop := 0 <= d <= 9.

(** ** Card Validator: checksum *)

Module Luhn.

(** Reduction of a doubled digit: a two-digit result is replaced by the sum
    of its digits. *)
Definition reduce (r : Z) : Z := if 9 <? r then r / 10 + r mod 10 else r.

(** The walk over the digits, rightmost first.  [second] tells whether the
    digit at the head is a "second" one, counted from the rightmost. *)
Fixpoint walk (second : bool) (ds : list Z) : Z :=
  match ds with
  | [] => 0
  | d :: rest =>
      (if second then reduce (2 * d) else d) + walk (negb second) rest
  end.

(** Modelled from the spec: the checksum rule of [CreditCardValidator]
    ([services/credit_card_service.py] is missing from the source tree).
    Digits are visited right to left, every second digit from the rightmost
    is doubled, two-digit results are reduced to their digit sum, all digits
    are totalled, and the check succeeds iff the total is 0 modulo 10. *)
Definition checksum_total (number : string) : Z :=
  walk false (reverse (digits_of number)).

Definition checksum_passes (number : string) : bool :=
  checksum_total number mod 10 =? 0.

(** The Luhn sum in the words of the property: the digit at distance [i]
    from the rightmost one (which is at distance 0) is doubled when [i] is
    odd, 9 is subtracted from a doubled result over 9, and the
    contributions are summed. *)
Definition term (i : nat) (d : Z) : Z :=
  if Nat.odd i then (if 9 <? 2 * d then 2 * d - 9 else 2 * d) else d.

Definition luhn_sum (number : string) : Z :=
  sumZ (imap term (reverse (digits_of number))).

(** The other reading of "odd positions, 1-indexed from the right", which
    doubles the rightmost digit itself. *)
Definition checksum_total_rightmost_doubled (number : string) : Z :=
  walk true (reverse (digits_of number)).

End Luhn.

(** ** Card Validator: expiry *)

Record year_month := YearMonth { ym_year : Z; ym_month : Z }.

(** Modelled from the spec: the expiry rule of [CreditCardValidator]
    ([services/credit_card_service.py] is missing from the source tree).
    The expiry is not in the past when its year is at least the current year
    and, in the current year, its month is at least the current month.  The
    current month is an argument. *)
Definition expiry_not_past (now expiry : year_month) : bool :=
  (ym_year now <? ym_year expiry)
  || ((ym_year expiry =? ym_year now) && (ym_month now <=? ym_month expiry)).

(** The calendar month before [m]. *)
Definition month_before (m : year_month) : year_month :=
  if ym_month m =? 1 then YearMonth (ym_year m - 1) 12
  else YearMonth (ym_year m) (ym_month m - 1).

Definition valid_month (m : year_month) : Prop := 1 <= ym_month m <= 12.

(** ** Field Normalizer *)

Module Normalizer.

(** Modelled from the spec: card-number normalization of the Field
    Normalizer (not in the source tree): all non-digit characters are
    stripped. *)
Definition normalize_card_number (raw : string) : string :=
  text (filter (λ c, is_digit c = true) (chars raw)).

(** Words of a text: maximal runs of non-space characters.  [cur] is the
    word being read, in order. *)
Fixpoint words_go (cur : list ascii) (l : list ascii) : list (list ascii) :=
  match l with
  | [] => match cur with [] => [] | _ => [cur] end
  | c :: rest =>
      if Ascii.is_space c
      then match cur with
           | [] => words_go [] rest
           | _ => cur :: words_go [] rest
           end
      else words_go (cur ++ [c]) rest
  end.

Definition words (l : list ascii) : list (list ascii) := words_go [] l.

(** A word: not empty, and without whitespace. *)
Definition word (w : list ascii) : Prop :=
  w ≠ [] ∧ Forall (λ c, Ascii.is_space c = false) w.

Fixpoint unwords (ws : list (list ascii)) : list ascii :=
  match ws with
  | [] => []
  | [w] => w
  | w :: rest => w ++ " "%char :: unwords rest
  end.

(** Modelled from the spec: name normalization of the Field Normalizer
    (not in the source tree), for the holder name and the bank name:
    surrounding whitespace is trimmed, internal whitespace runs are
    collapsed to one space, and case is preserved. *)
Definition normalize_name (raw : string) : string :=
  text (unwords (words (chars raw))).

End Normalizer.

(** ** Card Validator: verdict *)

Module Validator.

Inductive field := CardNumber | Expiration | HolderName | BankName.

Inductive reason :=
| BadNumber | ChecksumFailed | ExpiryMissing | ExpiryInPast | Missing.

Record fields := Fields {
  card_number : string;
  expiration : option year_month;
  holder_name : string;
  bank_name : string
}.

Record verdict := Verdict {
  is_valid : bool;
  failures : list (field * reason)
}.

Global Instance field_eq_dec : EqDecision field.
Proof. solve_decision. Defined.
Global Instance reason_eq_dec : EqDecision reason.
Proof. solve_decision. Defined.

Definition check (ok : bool) (f : field) (r : reason) : list (field * reason) :=
  if ok then [] else [(f, r)].

Definition number_well_formed (n : string) : bool :=
  is_digit_string n
  && (12 <=? Z.of_nat (String.length n)) && (Z.of_nat (String.length n) <=? 19).

Definition nonempty (s : string) : bool :=
  negb (String.eqb (Normalizer.normalize_name s) "").

(** Modelled from the spec: [validate] of the Card Validator (not in the
    source tree).  The six rules are all evaluated and their failures
    accumulate in rule order; the verdict is valid iff none failed. *)
Definition validate (now : year_month) (f : fields) : verdict :=
  let fs :=
    check (number_well_formed (card_number f)) CardNumber BadNumber
    ++ check (Luhn.checksum_passes (card_number f)) CardNumber ChecksumFailed
    ++ check (bool_decide (is_Some (expiration f))) Expiration ExpiryMissing
    ++ check (from_option (expiry_not_past now) true (expiration f))
             Expiration ExpiryInPast
    ++ check (nonempty (holder_name f)) HolderName Missing
    ++ check (nonempty (bank_name f)) BankName Missing in
  Verdict (bool_decide (fs = [])) fs.

Definition reports (v : verdict) (f : field) (r : reason) : bool :=
  bool_decide ((f, r) ∈ failures v).

End Validator.

(** ** Python values *)

Inductive pyval := VNone | VBool (b : bool) | VInt (n : Z) | VStr (s : string).

Global Instance pyval_eq_dec : EqDecision pyval.
Proof. solve_decision. Defined.

Abbreviation dict := (gmap string pyval).

(** Truth value of an object in an [if]. *)
Definition truthy (v : pyval) : bool :=
  match v with
  | VNone => false
  | VBool b => b
  | VInt n => negb (n =? 0)
  | VStr s => negb (String.eqb s "")
  end.

(** A dictionary is false when empty; [None] is false. *)
Definition truthy_dict (d : option dict) : bool :=
  match d with
  | None => false
  | Some d => negb (bool_decide (d = ∅))
  end.

Definition truthy_list {A} (l : list A) : bool :=
  match l with [] => false | _ => true end.

(** [str(v)], as an f-string renders it. *)
Definition str (v : pyval) : string :=
  match v with
  | VNone => "None"
  | VBool true => "True"
  | VBool false => "False"
  | VInt n => pretty n
  | VStr s => s
  end.

(** ** Exceptions *)

(** The classes that matter to the handlers of [app.py].  The last two derive
    from [BaseException] only; every other one derives from [Exception]. *)
Inductive exc_class :=
| ValueError | KeyError | DuplicateKey | ExecutionError | RuntimeError
| KeyboardInterrupt | SystemExit.

Record exc := Exc { exc_type : exc_class; exc_message : string }.

Global Instance exc_class_eq_dec : EqDecision exc_class.
Proof. solve_decision. Defined.
Global Instance exc_eq_dec : EqDecision exc.
Proof. solve_decision. Defined.

(** [isinstance(e, Exception)]: what [except Exception] matches. *)
Definition isinstance_Exception (e : exc) : bool :=
  match exc_type e with
  | KeyboardInterrupt | SystemExit => false
  | _ => true
  end.

(** [isinstance(e, ValueError)]: what [except ValueError] matches. *)
Definition isinstance_ValueError (e : exc) : bool :=
  match exc_type e with
  | ValueError => true
  | _ => false
  end.

Inductive outcome (A : Type) :=
| Return (a : A)
| Raise (e : exc).
Global Arguments Return {A} a.
Global Arguments Raise {A} e.

(** ** The world: record store, user interface, clock *)

Record row := Row { row_id : Z; row_data : dict }.

Record store := Store { rows : list row; next_id : Z }.

Record uploaded_file := UploadedFile { name : string; getvalue : string }.

Inductive markdown_block := Rule | QueryExamples.

(** What the user sees ([st.*] calls) and which service methods were called,
    in order. *)
Inductive event :=
| StTitle (s : string)
| StSubheader (s : string)
| StMarkdown (b : markdown_block)
| StImage (file : uploaded_file) (caption : string)
| StSpinner (s : string)
| StWrite (s : string)
| StWriteDict (d : dict)
| StDataframe (data : list dict)
| StDownloadButton (label : string) (data : list dict) (file_name : string)
| StError (s : string)
| StSuccess (s : string)
| StInfo (s : string)
| CallUploadBlob (file file_name : string)
| CallDetect (blob_url : pyval)
| CallValidate (card_info : dict)
| CallGetAllCards
| CallGetCardByNumber (number : pyval)
| CallInsertCard (card_info : dict)
| CallExecuteCustomQuery (query : string)
| SqlExecute (query : string).

Record world := World { db : store; trace : list event; clock : string }.

Definition set_db (s : store) (w : world) : world :=
  World s (trace w) (clock w).

Definition add_event (e : event) (w : world) : world :=
  World (db w) (trace w ++ [e]) (clock w).

(** The world with more events shown; store and clock are as before. *)
Definition extend (es : list event) (w : world) : world :=
  World (db w) (trace w ++ es) (clock w).

(** Is [e] a call to the database service or a statement handed to its engine? *)
Definition is_store_operation (e : event) : bool :=
  match e with
  | CallGetAllCards | CallGetCardByNumber _ | CallInsertCard _
  | CallExecuteCustomQuery _ | SqlExecute _ => true
  | _ => false
  end.

(** ** Computations: state passing with exceptions *)

Definition M (A : Type) : Type := world → outcome A * world.

Definition ret {A} (a : A) : M A := λ w, (Return a, w).

Definition raise {A} (e : exc) : M A := λ w, (Raise e, w).

Definition bind {A B} (c : M A) (k : A → M B) : M B :=
  λ w, match c w with
       | (Return a, w') => k a w'
       | (Raise e, w') => (Raise e, w')
       end.

Global Instance M_ret : MRet M := @ret.
Global Instance M_bind : MBind M := λ A B k c, bind c k.

(** [try: body / except: handler], the handler seeing every raised object. *)
Definition try_except {A} (body : M A) (handler : exc → M A) : M A :=
  λ w, match body w with
       | (Return a, w') => (Return a, w')
       | (Raise e, w') => handler e w'
       end.

(** The result of a call that cannot touch the world. *)
Definition lift {A} (o : outcome A) : M A := λ w, (o, w).

Definition emit (e : event) : M unit := λ w, (Return (), add_event e w).

(** [d[k]], raising [KeyError] on a missing key. *)
Definition getitem (d : dict) (k : string) : M pyval :=
  match d !! k with
  | Some v => ret v
  | None => raise (Exc KeyError k)
  end.

(** [datetime.datetime.now().isoformat()] *)
Definition now_isoformat : M string := λ w, (Return (clock w), w).

(** ** Services *)

(** [BlobStorageService]: uploads to external storage; it has no access to
    the record store or the page. *)
Class BlobStorageService := {
  upload_blob : string → string → outcome pyval
}.

(** [CreditCardValidator]: extraction and validation, external as well. *)
Class CreditCardValidator := {
  detect_credit_card_info_from_url : pyval → outcome (option dict);
  validate_card_info : dict → outcome dict
}.

(** [DatabaseService]: the four methods [app.py] calls. *)
Class DatabaseService := {
  get_all_cards : M (list dict);
  get_card_by_number : pyval → M (option dict);
  insert_card : dict → M unit;
  execute_custom_query : string → M (list dict)
}.

(** ** The pages of [app.py] *)

Section App.

Context {BLOB_STORAGE_SERVICE : BlobStorageService}.
Context {CREDIT_CARD_VALIDATOR : CreditCardValidator}.
Context {DATABASE_SERVICE : DatabaseService}.

(** Calls to the services, recorded as they are made. *)
Definition call_upload_blob (file file_name : string) : M pyval :=
  emit (CallUploadBlob file file_name);; lift (upload_blob file file_name).

Definition call_detect (blob_url : pyval) : M (option dict) :=
  emit (CallDetect blob_url);;
  lift (detect_credit_card_info_from_url blob_url).

Definition call_validate (card_info : dict) : M dict :=
  emit (CallValidate card_info);; lift (validate_card_info card_info).

Definition call_get_all_cards : M (list dict) :=
  emit CallGetAllCards;; get_all_cards.

Definition call_get_card_by_number (number : pyval) : M (option dict) :=
  emit (CallGetCardByNumber number);; get_card_by_number number.

Definition call_insert_card (card_info : dict) : M unit :=
  emit (CallInsertCard card_info);; insert_card card_info.

Definition call_execute_custom_query (query : string) : M (list dict) :=
  emit (CallExecuteCustomQuery query);; execute_custom_query query.

(** [except Exception as e: handler]: objects that are not instances of
    [Exception] are not matched and keep propagating. *)
Definition except_Exception {A} (handler : exc → M A) (e : exc) : M A :=
  if isinstance_Exception e then handler e else raise e.

(** [process_card_analysis(uploaded_file)] returns the pair
    [(card_info, validation_result)] or [None].  [not blob_url] holds for
    [None] and for the empty string, [not card_info] for [None] and for an
    empty dictionary.  The display calls ([st.image], [st.spinner],
    [st.error]) are taken to return: a run in which [st.image] raises on a
    file it cannot show is not among the runs described. *)
Definition process_card_analysis (uploaded_file : uploaded_file)
  : M (option (dict * dict)) :=
  try_except
    (emit (StImage uploaded_file "Card Image");;
     emit (StSpinner "Processing...");;
     let file_name := name uploaded_file in
     let file := getvalue uploaded_file in
     blob_url ← call_upload_blob file file_name;
     if negb (truthy blob_url) then
       emit (StError "Error uploading image to Blob Storage.");;
       ret None
     else
       card_info ← call_detect blob_url;
       match card_info with
       | Some info =>
           if negb (truthy_dict card_info) then
             emit (StError "Unable to analyze card.");;
             ret None
           else
             validation_result ← call_validate info;
             ret (Some (info, validation_result))
       | None =>
           emit (StError "Unable to analyze card.");;
           ret None
       end)
    (except_Exception (λ e,
       emit (StError ("Error during card analysis: " +:+ exc_message e));;
       ret None)).

(** The events up to the upload. *)
Definition upload_events (file : uploaded_file) : list event :=
  [StImage file "Card Image"; StSpinner "Processing...";
   CallUploadBlob (getvalue file) (name file)].

(** An exception is raised during upload, extraction or validation. *)
Definition raised_in_analysis (file : uploaded_file) (e : exc) : Prop :=
  upload_blob (getvalue file) (name file) = Raise e
  ∨ (∃ url, upload_blob (getvalue file) (name file) = Return url
            ∧ truthy url = true
            ∧ detect_credit_card_info_from_url url = Raise e)
  ∨ (∃ url info, upload_blob (getvalue file) (name file) = Return url
            ∧ truthy url = true
            ∧ detect_credit_card_info_from_url url = Return (Some info)
            ∧ info ≠ ∅
            ∧ validate_card_info info = Raise e).

(** What the handler of [process_card_analysis] does with a raised [e]. *)
Definition handled (e : exc) (es : list event) (w : world)
  : outcome (option (dict * dict)) * world :=
  if isinstance_Exception e
  then (Return None,
        extend (es ++ [StError ("Error during card analysis: "
                                 +:+ exc_message e)]) w)
  else (Raise e, extend es w).

(** [card_analysis_page()].  The two widgets are inputs: the uploaded file,
    if any, and whether the button was pressed. *)
Definition card_analysis_page (uploaded : option uploaded_file)
    (analyze_clicked : bool) : M unit :=
  emit (StTitle "💳 Card Analysis");;
  match uploaded with
  | Some uploaded_file =>
      if analyze_clicked then
        result ← process_card_analysis uploaded_file;
        match result with
        | Some (card_info, validation_result) =>
            emit (StWrite "Card Information:");;
            emit (StWriteDict card_info);;
            is_valid ← getitem validation_result "is_valid";
            if truthy is_valid then
              emit (StSuccess "✅ Valid Card");;
              number ← getitem card_info "card_number";
              existing_card ← call_get_card_by_number number;
              if truthy_dict existing_card then
                id ← getitem (default ∅ existing_card) "id";
                emit (StInfo
                  ("Card already exists in database. ID: " +:+ str id))
              else
                is_valid ← getitem validation_result "is_valid";
                let card_info := <["is_valid" := is_valid]> card_info in
                now ← now_isoformat;
                let card_info := <["processed_at" := VStr now]> card_info in
                call_insert_card card_info;;
                emit (StSuccess "Card inserted into database!")
            else
              emit (StError "❌ Invalid Card")
        | None => ret ()
        end
      else ret ()
  | None => ret ()
  end.

(** [database_query_page()].  The inputs are the text of the query box and
    whether the button was pressed. *)
Definition database_query_page (query : string) (execute_clicked : bool)
  : M unit :=
  emit (StTitle "🔍 Database Query");;
  emit (StSubheader "📊 All Records in `credit_cards` Table");;
  try_except
    (all_data ← call_get_all_cards;
     if truthy_list all_data then
       emit (StDataframe all_data);;
       emit (StDownloadButton "💾 Download All Data (CSV)" all_data
               "all_credit_cards_data.csv")
     else
       emit (StInfo "⚠️ No data found in `credit_cards` table."))
    (except_Exception (λ e,
       emit (StError ("Error loading all data: " +:+ exc_message e))));;
  emit (StMarkdown Rule);;
  emit (StSubheader "🔎 Custom Queries");;
  emit (StMarkdown QueryExamples);;
  if execute_clicked then
    try_except
      (results ← call_execute_custom_query query;
       if truthy_list results then
         emit (StDataframe results);;
         emit (StDownloadButton "💾 Download Results (CSV)" results
                 "query_results.csv")
       else
         emit (StInfo "🔍 No results found for the query."))
      (λ e,
         if isinstance_ValueError e then
           emit (StError ("❌ Validation error: " +:+ exc_message e))
         else
           except_Exception (λ e,
             emit (StError ("❌ Error executing query: " +:+ exc_message e)))
             e)
  else ret ().

End App.

(** ** Record Store *)

Module RecordStore.

(** The row as the service hands it out: the stored fields and the id. *)
Definition row_dict (r : row) : dict := <["id" := VInt (row_id r)]> (row_data r).

Definition number_of (record : dict) : option pyval := record !! "card_number".

Definition has_number (n : option pyval) (r : row) : bool :=
  bool_decide (number_of (row_data r) = n).

(** Modelled from the spec: [get_by_card_number] of the Record Store
    ([services/data_base.py] is missing from the source tree): exact-match
    lookup, absence is not an error. *)
Definition get_by_card_number (number : pyval) (s : store) : option row :=
  List.find (has_number (Some number)) (rows s).

(** Modelled from the spec: [insert] of the Record Store (missing from the
    source tree): fails with [DuplicateKey] if a record with the same
    card_number exists, otherwise assigns a fresh, increasing id and
    persists the record. *)
Definition insert (record : dict) (s : store) : outcome Z * store :=
  if existsb (has_number (number_of record)) (rows s)
  then (Raise (Exc DuplicateKey "card_number already exists"), s)
  else (Return (next_id s),
        Store (rows s ++ [Row (next_id s) record]) (next_id s + 1)).

(** Modelled from the spec: [get_all] of the Record Store (missing from the
    source tree): full scan in id order. *)
Definition get_all (s : store) : list dict := row_dict <$> rows s.

(** No two records carry the same card_number. *)
Definition unique_numbers (s : store) : Prop :=
  NoDup ((number_of ∘ row_data) <$> rows s).

End RecordStore.

(** ** Query Gateway *)

Module QueryGateway.

Inductive problem :=
| EmptyQuery | NotReadOnly | MultipleStatements | CommentInjection.

Definition message (p : problem) : string :=
  match p with
  | EmptyQuery => "query is empty"
  | NotReadOnly => "only read-only statements are allowed"
  | MultipleStatements => "multiple statements are not allowed"
  | CommentInjection => "comments are not allowed"
  end.

Definition is_blank (q : string) : bool := forallb Ascii.is_space (chars q).

Definition is_letter (c : ascii) : bool :=
  ((65 <=? code c) && (code c <=? 90)) || ((97 <=? code c) && (code c <=? 122)).

Definition upper (c : ascii) : ascii :=
  if (97 <=? code c) && (code c <=? 122)
  then ascii_of_nat (nat_of_ascii c - 32) else c.

Fixpoint skip_spaces (l : list ascii) : list ascii :=
  match l with
  | c :: rest => if Ascii.is_space c then skip_spaces rest else l
  | [] => []
  end.

Fixpoint leading_letters (l : list ascii) : list ascii :=
  match l with
  | c :: rest => if is_letter c then c :: leading_letters rest else []
  | [] => []
  end.

(** The first keyword of the text, in upper case. *)
Definition leading_keyword (q : string) : string :=
  text (upper <$> leading_letters (skip_spaces (chars q))).

Definition read_keywords : list string := ["SELECT"].

Definition mutating_keywords : list string :=
  ["INSERT"; "UPDATE"; "DELETE"; "DROP"; "ALTER"; "CREATE"; "REPLACE";
   "ATTACH"; "PRAGMA"].

Definition is_quote (c : ascii) : bool :=
  bool_decide (c = "'"%char) || bool_decide (c = "034"%char).

(** Where a scan of the text stands: in plain text, inside a quoted literal
    that ends at [quote], or inside a quoted identifier (in backticks or in
    brackets) that ends at [close].  A quote inside a quoted identifier does
    not open a literal. *)
Inductive region :=
| Plain
| Literal (quote : ascii)
| Identifier (close : ascii).

Definition in_literal (r : region) : bool :=
  match r with Literal _ => true | _ => false end.

(** The region after reading [c] in region [r]. *)
Definition next_region (r : region) (c : ascii) : region :=
  match r with
  | Plain =>
      if is_quote c then Literal c
      else if bool_decide (c = "`"%char) then Identifier "`"
      else if bool_decide (c = "["%char) then Identifier "]"
      else Plain
  | Literal quote => if bool_decide (c = quote) then Plain else r
  | Identifier close => if bool_decide (c = close) then Plain else r
  end.

(** The text outside quoted literals: an opening quote stays as a mark, the
    literal's content and its closing quote are dropped, everything else,
    quoted identifiers included, is kept. *)
Fixpoint outside_literals (r : region) (l : list ascii) : list ascii :=
  match l with
  | [] => []
  | c :: rest =>
      match r with
      | Literal _ => outside_literals (next_region r c) rest
      | _ => c :: outside_literals (next_region r c) rest
      end
  end.

Fixpoint has_pair (a b : ascii) (l : list ascii) : bool :=
  match l with
  | c :: (d :: _) as rest =>
      (bool_decide (c = a) && bool_decide (d = b)) || has_pair a b rest
  | _ => false
  end.

Definition leading_is_read (q : string) : bool :=
  bool_decide (leading_keyword q ∈ read_keywords).


(** A statement separator outside of a quoted literal. *)
Definition has_separator (q : string) : bool :=
  bool_decide (";"%char ∈ outside_literals Plain (chars q)).

(** A comment opener outside of a quoted literal. *)
Definition has_comment (q : string) : bool :=
  let l := outside_literals Plain (chars q) in
  has_pair "-" "-" l || has_pair "/" "*" l.

(** Modelled from the spec: the safety policy of the Query Gateway
    ([services/data_base.py] is missing from the source tree).  The text
    must be non-blank, lead with a read keyword, hold no statement
    separator outside a quoted literal and no comment opener. *)
Definition validate_query (q : string) : option problem :=
  if is_blank q then Some EmptyQuery
  else if negb (leading_is_read q) then Some NotReadOnly
  else if has_separator q then Some MultipleStatements
  else if has_comment q then Some CommentInjection
  else None.

(** A single read-only statement: what the policy lets through. *)
Definition single_read_only (q : string) : bool :=
  negb (is_blank q) && leading_is_read q
  && negb (has_separator q) && negb (has_comment q).

Section Engine.

(** The engine that runs an approved statement on the backing table: it
    yields rows or an error text, and a store. *)
Variable engine : string → store → (list dict + string) * store.

Definition run_engine (q : string) : M (list dict) :=
  λ w, match engine q (db w) with
       | (inl rs, s) => (Return rs, set_db s w)
       | (inr msg, s) => (Raise (Exc ExecutionError msg), set_db s w)
       end.

(** Modelled from the spec: [execute] of the Query Gateway (missing from
    the source tree).  Text that is not a single read-only statement
    fails with a validation error, which [app.py] catches as
    [ValueError]; approved text is handed to the engine, whose failure is
    an execution error. *)
Definition execute (q : string) : M (list dict) :=
  match validate_query q with
  | Some p => raise (Exc ValueError (message p))
  | None => emit (SqlExecute q);; run_engine q
  end.

(** The database service of the specification: the Record Store and the
    Query Gateway over one backing store. *)
Definition service : DatabaseService := {|
  get_all_cards := λ w, (Return (RecordStore.get_all (db w)), w);
  get_card_by_number number := λ w,
    (Return (RecordStore.row_dict <$>
               RecordStore.get_by_card_number number (db w)), w);
  insert_card record := λ w,
    match RecordStore.insert record (db w) with
    | (Return _, s) => (Return (), set_db s w)
    | (Raise e, s) => (Raise e, set_db s w)
    end;
  execute_custom_query := execute
|}.

End Engine.

End QueryGateway.

(** ** Kinds of query text *)

(** The texts the safety policy names, said of the text itself: by what
    stands at which position, not by what the gateway computes. *)
Module QueryText.

(** Empty or whitespace-only. *)
Definition blank (q : string) : Prop :=
  Forall (λ c, Ascii.is_space c = true) (chars q).

(** The first word of the text, after leading whitespace, is [word], a run
    of letters that ends where the text ends or a non-letter follows. *)
Definition first_word (q : string) (word : list ascii) : Prop :=
  ∃ spaces rest,
    chars q = spaces ++ word ++ rest
    ∧ Forall (λ c, Ascii.is_space c = true) spaces
    ∧ word ≠ []
    ∧ Forall (λ c, QueryGateway.is_letter c = true) word
    ∧ (∀ c, head rest = Some c → QueryGateway.is_letter c = false).

(** The leading keyword is a mutating one, in any letter case. *)
Definition leads_with_mutating_keyword (q : string) : Prop :=
  ∃ word,
    first_word q word
    ∧ text (QueryGateway.upper <$> word) ∈ QueryGateway.mutating_keywords.

(** The region in which the character at position [i] is read. *)
Definition region_at (q : string) (i : nat) : QueryGateway.region :=
  foldl QueryGateway.next_region QueryGateway.Plain (take i (chars q)).

(** A statement separator stands at some position outside of a quoted
    literal: the text holds more than one statement. *)
Definition multi_statement (q : string) : Prop :=
  ∃ i, chars q !! i = Some ";"%char
       ∧ QueryGateway.in_literal (region_at q i) = false.

(** A comment opener, [--] or [/*], stands at some position outside of a
    quoted literal. *)
Definition comment_injection (q : string) : Prop :=
  ∃ i a b,
    chars q !! i = Some a ∧ chars q !! S i = Some b
    ∧ ((a = "-"%char ∧ b = "-"%char) ∨ (a = "/"%char ∧ b = "*"%char))
    ∧ QueryGateway.in_literal (region_at q i) = false.


End QueryText.

(** What the query page shows before the custom query, over the store of the
    specification: the listing of all records. *)
Definition listing_events (s : store) : list event :=
  [StTitle "🔍 Database Query";
   StSubheader "📊 All Records in `credit_cards` Table";
   CallGetAllCards]
  ++ (if truthy_list (RecordStore.get_all s)
      then [StDataframe (RecordStore.get_all s);
            StDownloadButton "💾 Download All Data (CSV)" (RecordStore.get_all s)
              "all_credit_cards_data.csv"]
      else [StInfo "⚠️ No data found in `credit_cards` table."])
  ++ [StMarkdown Rule; StSubheader "🔎 Custom Queries"; StMarkdown QueryExamples].

(** The record the page hands to [insert_card]. *)
Definition stamped (card_info : dict) (is_valid : pyval) (now : string) : dict :=
  <["processed_at" := VStr now]> (<["is_valid" := is_valid]> card_info).

(** ** Stand-ins for the collaborators, for concrete runs *)

Module Fake.

Definition card_png : uploaded_file := UploadedFile "card.png" "PNG".

Definition extracted : dict :=
  {[ "card_number" := VStr "4532015112830366";
     "card_name" := VStr "ANA LIMA";
     "bank_name" := VStr "Bank X";
     "expiry_date" := VStr "01/30" ]}.

(** Candidate fields around a card number; the expiry is December 2029. *)
Definition fields_of (number : string) : Validator.fields :=
  Validator.Fields number (Some (YearMonth 2029 12)) "ANA LIMA" "Bank X".

(** The upload returns [None]. *)
Definition failing_upload : BlobStorageService :=
  {| upload_blob _ _ := Return VNone |}.

Definition working_upload : BlobStorageService :=
  {| upload_blob _ file_name := Return (VStr ("https://blob/" +:+ file_name)) |}.

(** The upload raises an error. *)
Definition broken_upload : BlobStorageService :=
  {| upload_blob _ _ := Raise (Exc RuntimeError "connection reset") |}.

(** The upload is interrupted. *)
Definition interrupted_upload : BlobStorageService :=
  {| upload_blob _ _ := Raise (Exc KeyboardInterrupt "") |}.

(** The extraction returns [None]. *)
Definition blind_validator : CreditCardValidator :=
  {| detect_credit_card_info_from_url _ := Return None;
     validate_card_info _ := Return ∅ |}.

Definition accepting_validator : CreditCardValidator :=
  {| detect_credit_card_info_from_url _ := Return (Some extracted);
     validate_card_info _ := Return {["is_valid" := VBool true]} |}.

Definition rejecting_validator : CreditCardValidator :=
  {| detect_credit_card_info_from_url _ := Return (Some extracted);
     validate_card_info _ := Return {["is_valid" := VBool false]} |}.

(** An engine that empties the table whatever it is given. *)
Definition wiping_engine (q : string) (s : store)
  : (list dict + string) * store :=
  (inl [], Store [] (next_id s)).

(** An engine that reads the whole table. *)
Definition scanning_engine (q : string) (s : store)
  : (list dict + string) * store :=
  (inl (RecordStore.get_all s), s).

Definition stocked : world :=
  World (Store [Row 1 extracted] 2) [] "2030-01-15T10:00:00".

Definition vacant : world := World (Store [] 1) [] "2030-01-15T10:00:00".

(** A database service whose query method is interrupted. *)
Definition interrupted_database : DatabaseService :=
  {| get_all_cards := ret [];
     get_card_by_number _ := ret None;
     insert_card _ := ret ();
     execute_custom_query _ := raise (Exc KeyboardInterrupt "") |}.

End Fake.

(** ** The application shell: sidebar, static pages, entry point *)

Module Shell.

(** What [r.json()] parses to; [JNull] is Python's [None]. *)
#[local] Unset Elimination Schemes.
Inductive json :=
| JNull
| JBool (b : bool)
| JNumber (n : Z)
| JString (s : string)
| JArray (items : list json)
| JObject (members : list (string * json)).
#[local] Set Elimination Schemes.

(** The response of [requests.get]: its status code, and what [r.json()]
    gives when called, a parsed body or a decoding error. *)
Record response := Response { status_code : Z; json_of : outcome json }.

(** [requests]: the HTTP client, external. *)
Class Requests := {
  requests_get : string → outcome response
}.

(** [streamlit_lottie]: the animation component, external; it may refuse
    what it is given. *)
Class LottieComponent := {
  st_lottie : json → Z → outcome unit
}.

Inductive text_block := HomeText | DocumentationText | AboutText.

(** What the shell shows around and between the events of a page. *)
Inductive shell_event :=
| SetPageConfig (page_title page_icon layout : string)
| SidebarRadio (label : string) (options labels : list string)
| HttpGet (url : string)
| StLottie (animation : json) (height : Z)
| StMarkdownText (b : text_block)
| OnPage (e : event).

(** The application during one run of the script. *)
Record app := App { store_of : store; shown : list shell_event; time : string }.

Definition S (A : Type) : Type := app → outcome A * app.

Definition unit_S {A} (a : A) : S A := λ s, (Return a, s).

Global Instance S_bind : MBind S := λ A B k c s,
  match c s with
  | (Return a, s') => k a s'
  | (Raise e, s') => (Raise e, s')
  end.

Definition show (e : shell_event) : S unit :=
  λ s, (Return (), App (store_of s) (shown s ++ [e]) (time s)).

Definition call {A} (o : outcome A) : S A := λ s, (o, s).

(** A page of [app.py] run inside the shell: it works on the store and the
    clock, and what it shows is appended in order. *)
Definition on_page {A} (c : M A) : S A := λ s,
  match c (World (store_of s) [] (time s)) with
  | (o, w) => (o, App (db w) (shown s ++ (OnPage <$> trace w)) (clock w))
  end.

(** The shell with more shown. *)
Definition more (es : list shell_event) (s : app) : app :=
  App (store_of s) (shown s ++ es) (time s).

(** A dictionary literal, in the order it is written. *)
Fixpoint lookup_key {A} (k : string) (d : list (string * A)) : option A :=
  match d with
  | [] => None
  | (k', v) :: rest => if decide (k = k') then Some v else lookup_key k rest
  end.

Fixpoint for_each {A B} (f : A → outcome B) (l : list A) : outcome (list B) :=
  match l with
  | [] => Return []
  | x :: rest =>
      match f x with
      | Return y =>
          match for_each f rest with
          | Return ys => Return (y :: ys)
          | Raise e => Raise e
          end
      | Raise e => Raise e
      end
  end.

(** [menu_options] of [render_sidebar]. *)
Definition menu_options : list (string * string) :=
  [("Home", "🏠"); ("Card Analysis", "💳"); ("Database Query", "🔍");
   ("Documentation", "📚"); ("About", "ℹ️")].

(** [lambda x: f"{x} {menu_options[x]}"] *)
Definition format_func (x : string) : outcome string :=
  match lookup_key x menu_options with
  | Some icon => Return (x +:+ " " +:+ icon)
  | None => Raise (Exc KeyError x)
  end.

(** The value of a radio: always one of its options, the one the user
    chose, or the first, which is preselected, when the choice is none of
    them. *)
Definition radio_value (options : list string) (selected : string) : string :=
  if bool_decide (selected ∈ options) then selected
  else default selected (head options).

(** [st.sidebar.radio(label, options, format_func=...)]: the labels are the
    options formatted; the value is one of the options. *)
Definition sidebar_radio (label : string) (options : list string)
    (format_func : string → outcome string) (selected : string) : S string :=
  labels ← call (for_each format_func options);
  show (SidebarRadio label options labels);;
  unit_S (radio_value options selected).

(** [render_sidebar()]; [selected] is the user's choice in the menu. *)
Definition render_sidebar (selected : string) : S string :=
  sidebar_radio "Menu" (menu_options.*1) format_func selected.

Definition lottie_url : string :=
  "https://lottie.host/c6d163ab-0ab8-49aa-8c50-332eb30e3774/kktucbjshh.json".

(** The widgets of the pages, as the user has set them. *)
Record inputs := Inputs {
  selected_menu : string;
  uploaded : option uploaded_file;
  analyze_clicked : bool;
  query_text : string;
  execute_clicked : bool
}.

Section Pages.

Context {REQUESTS : Requests}.
Context {LOTTIE : LottieComponent}.
Context {BLOB_STORAGE_SERVICE : BlobStorageService}.
Context {CREDIT_CARD_VALIDATOR : CreditCardValidator}.
Context {DATABASE_SERVICE : DatabaseService}.

(** [load_lottie(url)]: [None] unless the status is 200. *)
Definition load_lottie (url : string) : S json :=
  show (HttpGet url);;
  r ← call (requests_get url);
  if negb (status_code r =? 200) then unit_S JNull
  else call (json_of r).

(** [home_page()]: the animation is shown if [st_lottie] accepts what
    [load_lottie] returned, [None] included. *)
Definition home_page : S unit :=
  on_page (emit (StTitle "🌟 Simplifying Card Validation in E-commerce"));;
  lottie_translate ← load_lottie lottie_url;
  call (st_lottie lottie_translate 300);;
  show (StLottie lottie_translate 300);;
  show (StMarkdownText HomeText).

(** [documentation_page()] *)
Definition documentation_page : S unit :=
  on_page (emit (StTitle "📚 Documentation"));;
  show (StMarkdownText DocumentationText).

(** [about_page()] *)
Definition about_page : S unit :=
  on_page (emit (StTitle "ℹ️ About"));;
  show (StMarkdownText AboutText).

(** [page_handlers] of [main]. *)
Definition page_handlers (i : inputs) : list (string * S unit) :=
  [("Home", home_page);
   ("Card Analysis",
    on_page (card_analysis_page (uploaded i) (analyze_clicked i)));
   ("Database Query",
    on_page (database_query_page (query_text i) (execute_clicked i)));
   ("Documentation", documentation_page);
   ("About", about_page)].

(** [main()]: the handler is looked up with [page_handlers.get] and called
    if there is one. *)
Definition main (i : inputs) : S unit :=
  show (SetPageConfig "Credit Card Analyzer" "💳" "wide");;
  selected_page ← render_sidebar (selected_menu i);
  match lookup_key selected_page (page_handlers i) with
  | Some handler => handler
  | None => unit_S ()
  end.

End Pages.

(** What [main] shows before the page. *)
Definition chrome : list shell_event :=
  [SetPageConfig "Credit Card Analyzer" "💳" "wide";
   SidebarRadio "Menu"
     ["Home"; "Card Analysis"; "Database Query"; "Documentation"; "About"]
     ["Home 🏠"; "Card Analysis 💳"; "Database Query 🔍";
      "Documentation 📚"; "About ℹ️"]].

(** Does the shell event come from a store operation of a page? *)
Definition is_store_event (e : shell_event) : bool :=
  match e with
  | OnPage ev => is_store_operation ev
  | _ => false
  end.

End Shell.

(** ** More stand-ins *)

Module Stub.

(** The upload returns an empty string. *)
Definition empty_url_upload : BlobStorageService :=
  {| upload_blob _ _ := Return (VStr "") |}.

(** The extraction returns an empty dictionary. *)
Definition empty_extraction : CreditCardValidator :=
  {| detect_credit_card_info_from_url _ := Return (Some ∅);
     validate_card_info _ := Return {["is_valid" := VBool true]} |}.

(** The verdict has no ["is_valid"] entry. *)
Definition mute_validator : CreditCardValidator :=
  {| detect_credit_card_info_from_url _ := Return (Some Fake.extracted);
     validate_card_info _ := Return {["valid" := VBool true]} |}.

(** The extraction finds a bank but no number; the verdict is valid. *)
Definition numberless_validator : CreditCardValidator :=
  {| detect_credit_card_info_from_url _ :=
       Return (Some {["bank_name" := VStr "Bank X"]});
     validate_card_info _ := Return {["is_valid" := VBool true]} |}.

(** A database that is down: every method raises. *)
Definition offline_database : DatabaseService :=
  {| get_all_cards := raise (Exc ExecutionError "database is locked");
     get_card_by_number _ := raise (Exc ExecutionError "database is locked");
     insert_card _ := raise (Exc ExecutionError "database is locked");
     execute_custom_query _ := ret [] |}.

(** A database that finds nothing and refuses inserts. *)
Definition readonly_database : DatabaseService :=
  {| get_all_cards := ret [];
     get_card_by_number _ := ret None;
     insert_card _ := raise (Exc ExecutionError "attempt to write a readonly database");
     execute_custom_query _ := ret [] |}.

(** A database whose rows carry no id. *)
Definition idless_database : DatabaseService :=
  {| get_all_cards := ret [];
     get_card_by_number number := ret (Some {["card_number" := number]});
     insert_card _ := ret ();
     execute_custom_query _ := ret [] |}.

(** The animation host answers 404 with a body that is not JSON. *)
Definition not_found : Shell.Requests :=
  {| Shell.requests_get _ :=
       Return (Shell.Response 404 (Raise (Exc ValueError "Expecting value"))) |}.

(** The animation host answers 200 with an animation. *)
Definition animation : Shell.json :=
  Shell.JObject [("v", Shell.JString "5.5.2"); ("fr", Shell.JNumber 30)].

Definition found : Shell.Requests :=
  {| Shell.requests_get _ := Return (Shell.Response 200 (Return animation)) |}.

(** A player that shows any animation. *)
Definition lenient_player : Shell.LottieComponent :=
  {| Shell.st_lottie _ _ := Return () |}.

(** A player that refuses [None]. *)
Definition strict_player : Shell.LottieComponent :=
  {| Shell.st_lottie animation _ :=
       match animation with
       | Shell.JNull => Raise (Exc RuntimeError "no animation to show")
       | _ => Return ()
       end |}.

(** The network is down. *)
Definition unreachable : Shell.Requests :=
  {| Shell.requests_get _ := Raise (Exc RuntimeError "connection refused") |}.

Definition blank : Shell.app := Shell.App (Store [] 1) [] "2030-01-15T10:00:00".

Definition idle (selected : string) : Shell.inputs :=
  Shell.Inputs selected None false "" false.

End Stub.

(** * Properties *)

(** ** Checksum *)

Section LuhnFacts.

Lemma reduce_double d :
  decimal d → Luhn.reduce (2 * d) = if 9 <? 2 * d then 2 * d - 9 else 2 * d.
Proof.
  intros Hd. unfold Luhn.reduce.
  destruct (9 <? 2 * d) eqn:E; [|done].
  apply Z.ltb_lt in E.
  assert (d = 5 ∨ d = 6 ∨ d = 7 ∨ d = 8 ∨ d = 9) as Hc by (unfold decimal in Hd; lia).
  destruct Hc as [-> | [-> | [-> | [-> | ->]]]]; reflexivity.
Qed.

Lemma walk_positions ds : ∀ k,
  Forall decimal ds →
  Luhn.walk (Nat.odd k) ds = sumZ (imap (λ i, Luhn.term (k + i)) ds).
Proof.
  induction ds as [|d ds IH]; intros k Hds; [done|].
  inversion_clear Hds as [|?? Hd Hrest].
  rewrite imap_cons. cbn [Luhn.walk sumZ foldr].
  rewrite Nat.negb_odd, <- Nat.odd_succ.
  f_equal.
  - unfold Luhn.term. rewrite Nat.add_0_r.
    destruct (Nat.odd k); [by apply reduce_double|done].
  - rewrite (IH (S k) Hrest). f_equal.
    apply imap_ext. intros i x _. simpl. by rewrite Nat.add_succ_r.
Qed.

Lemma code_digit c : is_digit c = true → decimal (digit_value c).
Proof.
  unfold is_digit, digit_value, decimal.
  intros [H1 H2]%andb_prop. apply Z.leb_le in H1, H2. lia.
Qed.

Lemma digits_decimal s :
  is_digit_string s = true → Forall decimal (digits_of s).
Proof.
  unfold is_digit_string, digits_of. intros H.
  apply Forall_fmap, Forall_forall. intros c Hc.
  rewrite forallb_forall in H. apply code_digit, H. by apply list_elem_of_In.
Qed.

Lemma checksum_total_luhn_sum s :
  is_digit_string s = true → Luhn.checksum_total s = Luhn.luhn_sum s.
Proof.
  intros H. unfold Luhn.checksum_total, Luhn.luhn_sum.
  change false with (Nat.odd 0).
  rewrite walk_positions; [done|].
  by apply Forall_reverse, digits_decimal.
Qed.

End LuhnFacts.

Section ValidatorFacts.

Import Validator.

Lemma reports_checksum now f :
  reports (validate now f) CardNumber ChecksumFailed
  = negb (Luhn.checksum_passes (card_number f)).
Proof.
  unfold reports, validate, failures.
  destruct (number_well_formed _), (Luhn.checksum_passes _),
    (bool_decide (is_Some _)), (from_option _ _ _),
    (nonempty (holder_name f)), (nonempty (bank_name f)); reflexivity.
Qed.

Lemma reports_expiry now f e :
  expiration f = Some e →
  reports (validate now f) Expiration ExpiryInPast
  = negb (expiry_not_past now e).
Proof.
  intros He. unfold reports, validate, failures. rewrite He. simpl.
  destruct (number_well_formed _), (Luhn.checksum_passes _),
    (expiry_not_past now e),
    (nonempty (holder_name f)), (nonempty (bank_name f)); reflexivity.
Qed.

Lemma valid_iff_no_failure now f :
  is_valid (validate now f) = true ↔ failures (validate now f) = [].
Proof. unfold validate. simpl. apply bool_decide_eq_true. Qed.

End ValidatorFacts.

(** C1: for every digit string the validator's checksum check passes iff the
    Luhn sum (digits taken right to left, every second one from the rightmost
    doubled, 9 subtracted from a doubled result over 9, all summed) is 0
    modulo 10, and [validate] reports a checksum failure exactly when the
    check does not pass; "4532015112830366" passes and "4532015112830367"
    fails. *)
Theorem checksum_is_luhn :
  (∀ number : string,
     is_digit_string number = true →
     (Luhn.checksum_passes number = true ↔ Luhn.luhn_sum number mod 10 = 0)
     ∧ ∀ now f,
         Validator.card_number f = number →
         Validator.reports (Validator.validate now f)
           Validator.CardNumber Validator.ChecksumFailed = false
         ↔ Luhn.luhn_sum number mod 10 = 0)
  ∧ Luhn.checksum_passes "4532015112830366" = true
  ∧ Luhn.checksum_passes "4532015112830367" = false
  ∧ ∀ now f,
      (Validator.card_number f = "4532015112830366" →
       Validator.reports (Validator.validate now f)
         Validator.CardNumber Validator.ChecksumFailed = false)
      ∧ (Validator.card_number f = "4532015112830367" →
         Validator.reports (Validator.validate now f)
           Validator.CardNumber Validator.ChecksumFailed = true).
Proof.
  assert (∀ number, is_digit_string number = true →
            Luhn.checksum_passes number = true
            ↔ Luhn.luhn_sum number mod 10 = 0) as Hiff.
  { intros number H. unfold Luhn.checksum_passes.
    rewrite (checksum_total_luhn_sum _ H). apply Z.eqb_eq. }
  split; [|split; [reflexivity|split; [reflexivity|]]].
  - intros number H. split; [by apply Hiff|].
    intros now f <-. rewrite reports_checksum, negb_false_iff. by apply Hiff.
  - intros now f. split; intros Hn; by rewrite reports_checksum, Hn.
Qed.

Lemma checksum_is_luhn_witness :
  is_digit_string "79927398713" = true
  ∧ (Luhn.checksum_passes "79927398713" = true
     ↔ Luhn.luhn_sum "79927398713" mod 10 = 0)
  ∧ (Validator.reports
       (Validator.validate (YearMonth 2030 1) (Fake.fields_of "79927398713"))
       Validator.CardNumber Validator.ChecksumFailed = false
     ↔ Luhn.luhn_sum "79927398713" mod 10 = 0)
  ∧ Validator.reports
      (Validator.validate (YearMonth 2030 1) (Fake.fields_of "4532015112830367"))
      Validator.CardNumber Validator.ChecksumFailed = true.
Proof.
  split; [reflexivity|]. split; [|split].
  - apply (proj1 (proj1 checksum_is_luhn "79927398713" eq_refl)).
  - apply (proj2 (proj1 checksum_is_luhn "79927398713" eq_refl)
             (YearMonth 2030 1) (Fake.fields_of "79927398713") eq_refl).
  - apply (proj2 (proj2 (proj2 (proj2 checksum_is_luhn)) (YearMonth 2030 1)
                    (Fake.fields_of "4532015112830367")) eq_refl).
Defined.

(** The literal reading of "odd positions, 1-indexed from the right" doubles
    the rightmost digit; the known valid number does not total 0 modulo 10
    under it, so the checksum rule cannot mean that. *)
Lemma rightmost_doubled_rejects_known_valid :
  Luhn.checksum_total_rightmost_doubled "4532015112830366" mod 10 ≠ 0.
Proof. by vm_compute. Qed.

(** ** Expiry *)

Lemma current_month_passes now : expiry_not_past now now = true.
Proof.
  unfold expiry_not_past.
  rewrite Z.eqb_refl, Z.leb_refl. apply orb_true_r.
Qed.

Lemma month_before_fails now :
  valid_month now → expiry_not_past now (month_before now) = false.
Proof.
  unfold valid_month, expiry_not_past, month_before. intros Hm.
  destruct (ym_month now =? 1) eqn:E; simpl.
  - apply orb_false_iff. split; [apply Z.ltb_ge; lia|].
    apply andb_false_iff. left. apply Z.eqb_neq. lia.
  - apply Z.eqb_neq in E.
    apply orb_false_iff. split; [apply Z.ltb_ge; lia|].
    apply andb_false_iff. right. apply Z.leb_gt. lia.
Qed.

(** C5: the expiry check is taken against the current month, which is an
    argument of the validation: with now = 2030-01 an expiry of 2029-12 fails
    and one of 2030-01 passes; an expiry equal to the current month always
    passes and the month before it always fails; the same expiry passes or
    fails depending on "now"; and [validate] reports the expiry as past
    exactly when the check fails. *)
Theorem expiry_against_current_month :
  expiry_not_past (YearMonth 2030 1) (YearMonth 2029 12) = false
  ∧ expiry_not_past (YearMonth 2030 1) (YearMonth 2030 1) = true
  ∧ (∀ now, expiry_not_past now now = true)
  ∧ (∀ now, valid_month now → expiry_not_past now (month_before now) = false)
  ∧ (∃ expiry now1 now2,
       expiry_not_past now1 expiry = true ∧ expiry_not_past now2 expiry = false)
  ∧ ∀ now f expiry,
      Validator.expiration f = Some expiry →
      Validator.reports (Validator.validate now f)
        Validator.Expiration Validator.ExpiryInPast
      = negb (expiry_not_past now expiry).
Proof.
  split; [reflexivity|]. split; [reflexivity|].
  split; [apply current_month_passes|].
  split; [apply month_before_fails|].
  split; [|apply reports_expiry].
  by exists (YearMonth 2029 12), (YearMonth 2029 12), (YearMonth 2030 1).
Qed.

Lemma expiry_against_current_month_witness :
  valid_month (YearMonth 2030 1)
  ∧ expiry_not_past (YearMonth 2030 1) (month_before (YearMonth 2030 1)) = false
  ∧ Validator.reports
      (Validator.validate (YearMonth 2030 1) (Fake.fields_of "4532015112830366"))
      Validator.Expiration Validator.ExpiryInPast
    = negb (expiry_not_past (YearMonth 2030 1) (YearMonth 2029 12)).
Proof.
  split; [unfold valid_month; simpl; lia|]. split.
  - apply (proj1 (proj2 (proj2 (proj2 expiry_against_current_month)))).
    unfold valid_month; simpl; lia.
  - apply (proj2 (proj2 (proj2 (proj2 (proj2 expiry_against_current_month))))
             (YearMonth 2030 1) (Fake.fields_of "4532015112830366")
             (YearMonth 2029 12)).
    reflexivity.
Defined.

(** ** Normalization *)

Section NormalizerFacts.

Import Normalizer.

Lemma chars_text l : chars (text l) = l.
Proof. apply list_ascii_of_string_of_list_ascii. Qed.

Lemma filter_digits_twice (l : list ascii) :
  filter (λ c, is_digit c = true) (filter (λ c, is_digit c = true) l)
  = filter (λ c, is_digit c = true) l.
Proof.
  induction l as [|c l IH]; [done|].
  rewrite filter_cons. destruct (decide (is_digit c = true)) as [Hc|Hc]; [|done].
  rewrite filter_cons, decide_True by done. by f_equal.
Qed.

Lemma words_go_words cur l :
  Forall (λ c, Ascii.is_space c = false) cur → Forall word (words_go cur l).
Proof.
  revert cur. induction l as [|c l IH]; intros cur Hcur; simpl.
  - destruct cur; [constructor|]. by constructor; [split|constructor].
  - destruct (Ascii.is_space c) eqn:Hc.
    + destruct cur; [by apply IH|].
      constructor; [by split|]. apply IH. constructor.
    + apply IH, Forall_app. split; [done|]. by constructor.
Qed.

Lemma words_go_run w : ∀ cur rest,
  Forall (λ c, Ascii.is_space c = false) w →
  words_go cur (w ++ rest) = words_go (cur ++ w) rest.
Proof.
  induction w as [|c w IH]; intros cur rest Hw; simpl.
  - by rewrite app_nil_r.
  - inversion_clear Hw as [|?? Hc Hrest]. rewrite Hc, (IH _ _ Hrest).
    by rewrite <- app_assoc.
Qed.

Lemma words_unwords ws : Forall word ws → words (unwords ws) = ws.
Proof.
  unfold words. induction ws as [|w ws IH]; intros Hws; [done|].
  inversion_clear Hws as [|?? [Hne Hw] Hrest].
  destruct ws as [|w' ws].
  - simpl. rewrite <- (app_nil_r w) at 1. rewrite (words_go_run _ _ _ Hw).
    simpl. by destruct w.
  - change (unwords (w :: w' :: ws))
      with (w ++ " "%char :: unwords (w' :: ws)).
    rewrite (words_go_run _ _ _ Hw). simpl.
    destruct w; [done|]. f_equal. by apply IH.
Qed.

End NormalizerFacts.

(** C7: normalization is idempotent, for the card number and for a name:
    normalizing a normalized value gives it back. *)
Theorem normalize_idempotent (x : string) :
  Normalizer.normalize_card_number (Normalizer.normalize_card_number x)
  = Normalizer.normalize_card_number x
  ∧ Normalizer.normalize_name (Normalizer.normalize_name x)
    = Normalizer.normalize_name x.
Proof.
  unfold Normalizer.normalize_card_number, Normalizer.normalize_name.
  rewrite !chars_text. split; f_equal.
  - apply filter_digits_twice.
  - f_equal. apply words_unwords, words_go_words. constructor.
Qed.

Example normalize_name_collapses :
  Normalizer.normalize_name "  Ana   Maria Lima " = "Ana Maria Lima".
Proof. reflexivity. Qed.

Example normalize_card_number_strips :
  Normalizer.normalize_card_number "4532-0151 1283 0366" = "4532015112830366".
Proof. reflexivity. Qed.

(** ** The analysis flow *)

Lemma add_event_extend e w : add_event e w = extend [e] w.
Proof. done. Qed.

Lemma extend_extend es1 es2 w : extend es2 (extend es1 w) = extend (es1 ++ es2) w.
Proof. unfold extend. simpl. by rewrite app_assoc. Qed.

Lemma extend_nil w : extend [] w = w.
Proof. destruct w. unfold extend. simpl. by rewrite app_nil_r. Qed.

Ltac run :=
  unfold call_upload_blob, call_detect, call_validate, call_get_all_cards,
    call_get_card_by_number, call_insert_card, call_execute_custom_query,
    except_Exception, try_except, getitem, now_isoformat,
    mbind, M_bind, bind, emit, lift, ret, raise;
  simpl.

Ltac tidy := simpl; rewrite ?add_event_extend, ?extend_extend; simpl.

Section AnalysisFacts.

Context {BLOB_STORAGE_SERVICE : BlobStorageService}.
Context {CREDIT_CARD_VALIDATOR : CreditCardValidator}.
Context {DATABASE_SERVICE : DatabaseService}.

Lemma upload_falsy file w url :
  upload_blob (getvalue file) (name file) = Return url →
  truthy url = false →
  process_card_analysis file w
  = (Return None,
     extend (upload_events file
             ++ [StError "Error uploading image to Blob Storage."]) w).
Proof.
  intros Hup Hurl. unfold process_card_analysis. run.
  rewrite Hup, Hurl. simpl. by tidy.
Qed.

Lemma detect_falsy file w url info :
  upload_blob (getvalue file) (name file) = Return url →
  truthy url = true →
  detect_credit_card_info_from_url url = Return info →
  truthy_dict info = false →
  process_card_analysis file w
  = (Return None,
     extend (upload_events file
             ++ [CallDetect url; StError "Unable to analyze card."]) w).
Proof.
  intros Hup Hurl Hdet Hinfo. unfold process_card_analysis. run.
  rewrite Hup, Hurl. simpl. rewrite Hdet.
  destruct info as [info|]; simpl in *; [rewrite Hinfo; simpl|]; by tidy.
Qed.

Lemma analysis_returns file w url info result :
  upload_blob (getvalue file) (name file) = Return url →
  truthy url = true →
  detect_credit_card_info_from_url url = Return (Some info) →
  info ≠ ∅ →
  validate_card_info info = Return result →
  process_card_analysis file w
  = (Return (Some (info, result)),
     extend (upload_events file ++ [CallDetect url; CallValidate info]) w).
Proof.
  intros Hup Hurl Hdet Hinfo Hval. unfold process_card_analysis. run.
  rewrite Hup, Hurl. simpl. rewrite Hdet. simpl.
  rewrite bool_decide_eq_false_2 by done. simpl. rewrite Hval. by tidy.
Qed.

Lemma analysis_raises file e :
  raised_in_analysis file e →
  ∃ es, Forall (λ ev, is_store_operation ev = false) es
        ∧ ∀ w, process_card_analysis file w = handled e es w.
Proof.
  unfold handled.
  intros [Hup | [(url & Hup & Hurl & Hdet)
                | (url & info & Hup & Hurl & Hdet & Hinfo & Hval)]].
  - exists (upload_events file). split; [by repeat constructor|]. intros w.
    unfold process_card_analysis. run. rewrite Hup.
    destruct (isinstance_Exception e); by tidy.
  - exists (upload_events file ++ [CallDetect url]).
    split; [by repeat constructor|]. intros w.
    unfold process_card_analysis. run. rewrite Hup, Hurl. simpl.
    rewrite Hdet. destruct (isinstance_Exception e); by tidy.
  - exists (upload_events file ++ [CallDetect url; CallValidate info]).
    split; [by repeat constructor|]. intros w.
    unfold process_card_analysis. run. rewrite Hup, Hurl. simpl.
    rewrite Hdet. simpl. rewrite bool_decide_eq_false_2 by done. simpl.
    rewrite Hval. destruct (isinstance_Exception e); by tidy.
Qed.

(** Every run of [process_card_analysis] is one of the four above: its
    result does not depend on the world, it only shows events, none of
    them a store operation, and what it lets through is an exception of
    a collaborator that is not an instance of [Exception]. *)
Lemma analysis_cases file :
  ∃ es o, Forall (λ ev, is_store_operation ev = false) es
    ∧ (∀ w, process_card_analysis file w = (o, extend es w))
    ∧ ∀ e, o = Raise e →
           raised_in_analysis file e ∧ isinstance_Exception e = false.
Proof.
  assert (∀ e, raised_in_analysis file e →
    ∃ es o, Forall (λ ev, is_store_operation ev = false) es
      ∧ (∀ w, process_card_analysis file w = (o, extend es w))
      ∧ ∀ e', o = Raise e' →
           raised_in_analysis file e' ∧ isinstance_Exception e' = false)
    as Hraise.
  { intros e He. destruct (analysis_raises file e He) as (es & Hes & Hrun).
    unfold handled in Hrun. destruct (isinstance_Exception e) eqn:Hc.
    - eexists _, _. split; [|split; [exact Hrun|done]].
      apply Forall_app. split; [done|]. by repeat constructor.
    - eexists _, _. split; [exact Hes|]. split; [exact Hrun|].
      by intros e' [= <-]. }
  destruct (upload_blob (getvalue file) (name file)) as [url|e] eqn:Hup;
    [|apply (Hraise e); by left].
  destruct (truthy url) eqn:Hurl.
  2:{ eexists _, _. split; [|split; [intros w; by eapply upload_falsy|done]].
      by repeat constructor. }
  destruct (detect_credit_card_info_from_url url) as [info|e] eqn:Hdet;
    [|apply (Hraise e); right; left; eauto].
  destruct (truthy_dict info) eqn:Hinfo.
  2:{ eexists _, _. split; [|split; [intros w; by eapply detect_falsy|done]].
      by repeat constructor. }
  destruct info as [info|]; [|done]. simpl in Hinfo.
  apply negb_true_iff, bool_decide_eq_false in Hinfo.
  destruct (validate_card_info info) as [result|e] eqn:Hval;
    [|apply (Hraise e); right; right; eauto 10].
  eexists _, _. split; [|split; [intros w; by eapply analysis_returns|done]].
  by repeat constructor.
Qed.

Lemma page_runs_analysis file w :
  card_analysis_page (Some file) true w
  = match process_card_analysis file (extend [StTitle "💳 Card Analysis"] w) with
    | (Return (Some (card_info, validation_result)), w1) =>
        (emit (StWrite "Card Information:");;
         emit (StWriteDict card_info);;
         is_valid ← getitem validation_result "is_valid";
         if truthy is_valid then
           emit (StSuccess "✅ Valid Card");;
           number ← getitem card_info "card_number";
           existing_card ← call_get_card_by_number number;
           if truthy_dict existing_card then
             id ← getitem (default ∅ existing_card) "id";
             emit (StInfo ("Card already exists in database. ID: " +:+ str id))
           else
             is_valid ← getitem validation_result "is_valid";
             let card_info := <["is_valid" := is_valid]> card_info in
             now ← now_isoformat;
             let card_info := <["processed_at" := VStr now]> card_info in
             call_insert_card card_info;;
             emit (StSuccess "Card inserted into database!")
         else
           emit (StError "❌ Invalid Card")) w1
    | (Return None, w1) => (Return (), w1)
    | (Raise e, w1) => (Raise e, w1)
    end.
Proof.
  unfold card_analysis_page, mbind, M_bind, bind, emit at 1.
  rewrite add_event_extend.
  destruct (process_card_analysis _ _) as [[[[ci vr]|]|e] w1]; done.
Qed.

End AnalysisFacts.

(** C6: a null result of a collaborator stops the analysis with a message and
    nothing is written.  When the blob upload returns [None], the upload
    error is shown, the extraction is not called (no [CallDetect] event) and
    [process_card_analysis] returns [None]; when the extraction returns
    [None], "Unable to analyze card." is shown and the result is [None].  In
    both cases the page ends there: the store is the one it started with and
    no database method was called. *)
Theorem null_collaborator_stops_analysis
    `{BlobStorageService} `{CreditCardValidator} `{DatabaseService}
    (file : uploaded_file) (w : world) :
  (upload_blob (getvalue file) (name file) = Return VNone →
   process_card_analysis file w
   = (Return None,
      extend [StImage file "Card Image"; StSpinner "Processing...";
              CallUploadBlob (getvalue file) (name file);
              StError "Error uploading image to Blob Storage."] w)
   ∧ card_analysis_page (Some file) true w
     = (Return (),
        extend [StTitle "💳 Card Analysis";
                StImage file "Card Image"; StSpinner "Processing...";
                CallUploadBlob (getvalue file) (name file);
                StError "Error uploading image to Blob Storage."] w))
  ∧ (∀ url,
       upload_blob (getvalue file) (name file) = Return url →
       truthy url = true →
       detect_credit_card_info_from_url url = Return None →
       process_card_analysis file w
       = (Return None,
          extend [StImage file "Card Image"; StSpinner "Processing...";
                  CallUploadBlob (getvalue file) (name file);
                  CallDetect url; StError "Unable to analyze card."] w)
       ∧ card_analysis_page (Some file) true w
         = (Return (),
            extend [StTitle "💳 Card Analysis";
                    StImage file "Card Image"; StSpinner "Processing...";
                    CallUploadBlob (getvalue file) (name file);
                    CallDetect url; StError "Unable to analyze card."] w)).
Proof.
  split.
  - intros Hup. split; [by apply (upload_falsy file w VNone)|].
    rewrite page_runs_analysis, (upload_falsy file _ VNone) by done.
    by rewrite extend_extend.
  - intros url Hup Hurl Hdet.
    split; [by apply (detect_falsy file w url None)|].
    rewrite page_runs_analysis, (detect_falsy file _ url None) by done.
    by rewrite extend_extend.
Qed.

Lemma null_collaborator_stops_analysis_witness :
  @card_analysis_page Fake.failing_upload Fake.blind_validator
    (QueryGateway.service Fake.wiping_engine) (Some Fake.card_png) true Fake.stocked
  = (Return (),
     extend [StTitle "💳 Card Analysis";
             StImage Fake.card_png "Card Image"; StSpinner "Processing...";
             CallUploadBlob "PNG" "card.png";
             StError "Error uploading image to Blob Storage."] Fake.stocked)
  ∧ @card_analysis_page Fake.working_upload Fake.blind_validator
      (QueryGateway.service Fake.wiping_engine) (Some Fake.card_png) true Fake.stocked
    = (Return (),
       extend [StTitle "💳 Card Analysis";
               StImage Fake.card_png "Card Image"; StSpinner "Processing...";
               CallUploadBlob "PNG" "card.png";
               CallDetect (VStr "https://blob/card.png");
               StError "Unable to analyze card."] Fake.stocked).
Proof.
  split.
  - apply (proj1 (@null_collaborator_stops_analysis Fake.failing_upload
                    Fake.blind_validator _ Fake.card_png Fake.stocked)).
    reflexivity.
  - apply (proj2 (@null_collaborator_stops_analysis Fake.working_upload
                    Fake.blind_validator _ Fake.card_png Fake.stocked)
             (VStr "https://blob/card.png")); reflexivity.
Defined.

(** C9, as the code has it: [process_card_analysis] returns a pair or [None]
    and never lets an instance of [Exception] out.  An exception raised by
    the upload, the extraction or the validation that is an instance of
    [Exception] is reported with [st.error] and the result is [None]; what
    can come out is only an exception of a collaborator that is not an
    instance of [Exception], which [except Exception] does not match. *)
Theorem process_card_analysis_catches_Exception
    `{BlobStorageService} `{CreditCardValidator}
    (file : uploaded_file) (w : world) :
  (∀ e w', process_card_analysis file w = (Raise e, w') →
           isinstance_Exception e = false ∧ raised_in_analysis file e)
  ∧ (∀ e, raised_in_analysis file e →
          isinstance_Exception e = true →
          ∃ es, process_card_analysis file w
                = (Return None,
                   extend (es ++ [StError ("Error during card analysis: "
                                            +:+ exc_message e)]) w)).
Proof.
  split.
  - intros e w' Hrun.
    destruct (analysis_cases file) as (es & o & _ & Hall & Hlet).
    rewrite Hall in Hrun. injection Hrun as -> _.
    by destruct (Hlet e eq_refl).
  - intros e Hraised He.
    destruct (analysis_raises file e Hraised) as (es & _ & Hrun).
    exists es. rewrite Hrun. unfold handled. by rewrite He.
Qed.

Lemma process_card_analysis_catches_Exception_witness :
  (∃ es, @process_card_analysis Fake.broken_upload Fake.blind_validator
           Fake.card_png Fake.stocked
         = (Return None,
            extend (es ++ [StError "Error during card analysis: connection reset"])
              Fake.stocked))
  ∧ isinstance_Exception (Exc KeyboardInterrupt "") = false
  ∧ @raised_in_analysis Fake.interrupted_upload Fake.blind_validator
      Fake.card_png (Exc KeyboardInterrupt "").
Proof.
  split.
  - apply (proj2 (@process_card_analysis_catches_Exception Fake.broken_upload
                    Fake.blind_validator Fake.card_png Fake.stocked)
             (Exc RuntimeError "connection reset")).
    + left. reflexivity.
    + reflexivity.
  - apply (proj1 (@process_card_analysis_catches_Exception
                    Fake.interrupted_upload Fake.blind_validator
                    Fake.card_png Fake.stocked)
             (Exc KeyboardInterrupt "")
             (extend (@upload_events Fake.card_png) Fake.stocked)).
    reflexivity.
Defined.

(** C9 as stated fails: an upload interrupted by [KeyboardInterrupt] is not
    caught, [process_card_analysis] propagates it. *)
Lemma process_card_analysis_propagates_interrupt :
  fst (@process_card_analysis Fake.interrupted_upload Fake.blind_validator
         Fake.card_png Fake.stocked)
  = Raise (Exc KeyboardInterrupt "")
  ∧ ¬ (∀ (B : BlobStorageService) (V : CreditCardValidator) file w,
         ∃ r w', @process_card_analysis B V file w = (Return r, w')).
Proof.
  split; [reflexivity|].
  intros Hall.
  destruct (Hall Fake.interrupted_upload Fake.blind_validator
              Fake.card_png Fake.stocked) as (r & w' & Hrun).
  discriminate Hrun.
Qed.

(** C4: when the verdict's [is_valid] is false, the page reports
    "Invalid Card" and does nothing else: every event it adds is shown to
    the user or is a call to the upload, extraction or validation, none is a
    store operation (no lookup, no insert), and the store is unchanged. *)
Theorem invalid_card_not_stored
    `{BlobStorageService} `{CreditCardValidator} `{DatabaseService}
    (file : uploaded_file) (w : world)
    (card_info validation_result : dict) (is_valid : pyval) :
  fst (process_card_analysis file w) = Return (Some (card_info, validation_result)) →
  validation_result !! "is_valid" = Some is_valid →
  truthy is_valid = false →
  ∃ es,
    card_analysis_page (Some file) true w
    = (Return (), extend (es ++ [StError "❌ Invalid Card"]) w)
    ∧ Forall (λ ev, is_store_operation ev = false) es
    ∧ db (extend (es ++ [StError "❌ Invalid Card"]) w) = db w.
Proof.
  intros Hrun Hkey Hfalse.
  destruct (analysis_cases file) as (es & o & Hes & Hall & _).
  rewrite Hall in Hrun. simpl in Hrun. subst o.
  exists (StTitle "💳 Card Analysis" :: es
          ++ [StWrite "Card Information:"; StWriteDict card_info]).
  split; [|split; [|done]].
  - rewrite page_runs_analysis, Hall. run. rewrite Hkey. simpl.
    rewrite Hfalse. tidy. by rewrite <- !app_assoc.
  - constructor; [done|]. apply Forall_app. split; [done|].
    by repeat constructor.
Qed.

Lemma invalid_card_not_stored_witness :
  ∃ es,
    @card_analysis_page Fake.working_upload Fake.rejecting_validator
      (QueryGateway.service Fake.wiping_engine) (Some Fake.card_png) true Fake.stocked
    = (Return (), extend (es ++ [StError "❌ Invalid Card"]) Fake.stocked)
    ∧ Forall (λ ev, is_store_operation ev = false) es
    ∧ db (extend (es ++ [StError "❌ Invalid Card"]) Fake.stocked) = db Fake.stocked.
Proof.
  apply (@invalid_card_not_stored Fake.working_upload Fake.rejecting_validator
           _ Fake.card_png Fake.stocked Fake.extracted
           {["is_valid" := VBool false]} (VBool false)); reflexivity.
Defined.

(** ** The query page *)

Section QueryFacts.

Import QueryGateway.




Lemma approved_no_problem q :
  single_read_only q = true → validate_query q = None.
Proof.
  unfold single_read_only, validate_query.
  by destruct (is_blank q), (leading_is_read q), (has_separator q),
       (has_comment q).
Qed.

Lemma listing_page engine q w :
  @database_query_page (service engine) q false w
  = (Return (), extend (listing_events (db w)) w).
Proof.
  unfold database_query_page, listing_events. run.
  destruct (RecordStore.get_all (db w)); by tidy.
Qed.


End QueryFacts.

Section QueryTextFacts.

Import QueryGateway.















End QueryTextFacts.



(** A quote inside a quoted identifier opens no literal, so a separator
    after it is seen. *)
Example quote_in_identifier_hides_nothing :
  QueryGateway.validate_query "SELECT `a'b` FROM cards; DROP TABLE cards --'"
  = Some QueryGateway.MultipleStatements
  ∧ QueryGateway.validate_query "SELECT [a'b] FROM cards; DROP TABLE cards --'"
    = Some QueryGateway.MultipleStatements.
Proof. done. Qed.

(** Each kind of unsafe text, at a text of its own. *)
Example unsafe_kinds :
  QueryText.blank "   "
  ∧ QueryText.leads_with_mutating_keyword "  drop table cards"
  ∧ QueryText.multi_statement "SELECT `a'b` FROM cards; DROP TABLE cards --'"
  ∧ QueryText.multi_statement "SELECT [a'b] FROM cards; DROP TABLE cards --'"
  ∧ QueryText.comment_injection "SELECT * FROM cards /* x */"
  ∧ ¬ QueryText.multi_statement "SELECT * FROM cards WHERE bank_name = 'a;b'".
Proof.
  split_and!.
  - by repeat constructor.
  - exists (chars "drop"). split; [|by vm_compute; set_solver].
    exists (chars "  "), (chars " table cards").
    split_and!; try done; try by repeat constructor.
    by intros c [= <-].
  - exists 23%nat. by split.
  - exists 23%nat. by split.
  - exists 20%nat, "/"%char, "*"%char. split_and!; auto.
  - intros (i & Hi & Hr).
    do 44 (destruct i as [|i]; [by vm_compute in Hi, Hr|]). done.
Qed.

Example mutating_keyword_any_case :
  QueryGateway.validate_query "drop table cards" = Some QueryGateway.NotReadOnly
  ∧ QueryGateway.validate_query "   " = Some QueryGateway.EmptyQuery
  ∧ QueryGateway.validate_query "SELECT * FROM cards /* x */"
    = Some QueryGateway.CommentInjection
  ∧ QueryGateway.validate_query "select * from cards where bank_name = 'a;b'"
    = None.
Proof. done. Qed.

(** Approved text, and only that, is handed to the engine. *)
Lemma approved_query_executes engine query w :
  QueryGateway.single_read_only query = true →
  QueryGateway.execute engine query w
  = QueryGateway.run_engine engine query (extend [SqlExecute query] w).
Proof.
  intros Hq. unfold QueryGateway.execute.
  by rewrite (approved_no_problem _ Hq).
Qed.


Example select_is_executed :
  QueryGateway.execute Fake.wiping_engine "SELECT * FROM cards" Fake.stocked
  = (Return [],
     World (Store [] 2) [SqlExecute "SELECT * FROM cards"] "2030-01-15T10:00:00").
Proof. reflexivity. Qed.

Section QueryPageFacts.

Context {DATABASE_SERVICE : DatabaseService}.

(** The page without the button pressed is the listing; with the button
    pressed it goes on with the custom query from there. *)
Lemma query_page_continues query w w1 :
  database_query_page query false w = (Return (), w1) →
  database_query_page query true w
  = try_except
      (results ← call_execute_custom_query query;
       if truthy_list results then
         emit (StDataframe results);;
         emit (StDownloadButton "💾 Download Results (CSV)" results
                 "query_results.csv")
       else
         emit (StInfo "🔍 No results found for the query."))
      (λ e,
         if isinstance_ValueError e then
           emit (StError ("❌ Validation error: " +:+ exc_message e))
         else
           except_Exception (λ e,
             emit (StError ("❌ Error executing query: " +:+ exc_message e)))
             e) w1.
Proof.
  unfold database_query_page, mbind, M_bind, bind, emit. simpl.
  destruct (try_except _ _ _) as [[[]|e] w2]; simpl; [|done].
  unfold ret. by intros [= ->].
Qed.

End QueryPageFacts.

(** C10, as the code has it: once the listing is shown, the outcome of
    [execute_custom_query] decides what the page does.  A [ValueError] is
    shown as a validation error, any other instance of [Exception] as an
    execution error, an empty result as the informational "No results"
    message, other results in a table with a download button; none of these
    propagates.  An exception that is not an instance of [Exception] is not
    matched by either handler and propagates. *)
Theorem query_outcomes_classified `{DatabaseService}
    (query : string) (w w1 w2 : world) (o : outcome (list dict)) :
  database_query_page query false w = (Return (), w1) →
  execute_custom_query query (extend [CallExecuteCustomQuery query] w1) = (o, w2) →
  database_query_page query true w
  = match o with
    | Return [] =>
        (Return (), extend [StInfo "🔍 No results found for the query."] w2)
    | Return results =>
        (Return (),
         extend [StDataframe results;
                 StDownloadButton "💾 Download Results (CSV)" results
                   "query_results.csv"] w2)
    | Raise e =>
        if isinstance_ValueError e then
          (Return (),
           extend [StError ("❌ Validation error: " +:+ exc_message e)] w2)
        else if isinstance_Exception e then
          (Return (),
           extend [StError ("❌ Error executing query: " +:+ exc_message e)] w2)
        else (Raise e, w2)
    end.
Proof.
  intros Hlisting Hquery.
  rewrite (query_page_continues _ _ _ Hlisting). run.
  rewrite add_event_extend, Hquery.
  destruct o as [[|r results]|e]; [by tidy..|].
  destruct (isinstance_ValueError e); [by tidy|].
  destruct (isinstance_Exception e); by tidy.
Qed.

Lemma query_outcomes_classified_witness :
  @database_query_page (QueryGateway.service Fake.scanning_engine)
    "DELETE FROM credit_cards" true Fake.stocked
  = (Return (),
     extend [StError "❌ Validation error: only read-only statements are allowed"]
       (extend [CallExecuteCustomQuery "DELETE FROM credit_cards"]
          (extend (listing_events (db Fake.stocked)) Fake.stocked))).
Proof.
  apply (@query_outcomes_classified (QueryGateway.service Fake.scanning_engine)
           "DELETE FROM credit_cards" Fake.stocked
           (extend (listing_events (db Fake.stocked)) Fake.stocked)
           (extend [CallExecuteCustomQuery "DELETE FROM credit_cards"]
              (extend (listing_events (db Fake.stocked)) Fake.stocked))
           (Raise (Exc ValueError "only read-only statements are allowed")));
    reflexivity.
Defined.

(** C10 as stated fails: a query interrupted by [KeyboardInterrupt] is caught
    by neither handler and propagates out of the page. *)
Lemma query_page_propagates_interrupt :
  fst (@database_query_page Fake.interrupted_database
         "SELECT * FROM credit_cards" true Fake.vacant)
  = Raise (Exc KeyboardInterrupt "")
  ∧ ¬ (∀ (D : DatabaseService) query w w1,
         @database_query_page D query false w = (Return (), w1) →
         ∃ w', @database_query_page D query true w = (Return (), w')).
Proof.
  split; [reflexivity|].
  intros Hall.
  destruct (Hall Fake.interrupted_database "SELECT * FROM credit_cards"
              Fake.vacant _ eq_refl) as (w' & Hrun).
  discriminate Hrun.
Qed.

(** ** The record store under the analysis page *)

Section StoreFacts.

Import RecordStore.

Lemma find_none_existsb {A} (f : A → bool) l :
  List.find f l = None → existsb f l = false.
Proof.
  induction l as [|x l IH]; simpl; [done|].
  destruct (f x); [done|]. exact IH.
Qed.

Lemma existsb_false_not_elem n (l : list row) :
  existsb (has_number n) l = false → n ∉ (number_of ∘ row_data) <$> l.
Proof.
  induction l as [|r l IH]; simpl; [intros _; apply not_elem_of_nil|].
  intros [Hr Hl]%orb_false_iff. apply not_elem_of_cons. split; [|by apply IH].
  unfold has_number in Hr. apply bool_decide_eq_false in Hr. congruence.
Qed.

Lemma find_some_has_number n (l : list row) r :
  List.find (has_number n) l = Some r →
  r ∈ l ∧ number_of (row_data r) = n.
Proof.
  intros [Hin Hr]%find_some. split; [by apply list_elem_of_In|].
  unfold has_number in Hr. by apply bool_decide_eq_true in Hr.
Qed.

Lemma insert_keeps_unique record s :
  unique_numbers s → unique_numbers (snd (insert record s)).
Proof.
  unfold insert, unique_numbers. intros Hs.
  destruct (existsb _ _) eqn:Hex; simpl; [done|].
  rewrite fmap_app. apply NoDup_app. split; [done|]. split.
  - intros n Hn [->|[]%not_elem_of_nil]%elem_of_cons.
    by apply (existsb_false_not_elem _ _ Hex).
  - apply NoDup_singleton.
Qed.

Lemma row_dict_truthy r : truthy_dict (Some (row_dict r)) = true.
Proof.
  simpl. apply negb_true_iff, bool_decide_eq_false.
  unfold row_dict. apply insert_non_empty.
Qed.

Lemma row_dict_id r : row_dict r !! "id" = Some (VInt (row_id r)).
Proof. unfold row_dict. apply lookup_insert_eq. Qed.

Lemma stamped_number card_info is_valid now :
  number_of (stamped card_info is_valid now) = number_of card_info.
Proof.
  unfold number_of, stamped. by rewrite !lookup_insert_ne.
Qed.

End StoreFacts.

Section PageStoreFacts.

Context {BLOB_STORAGE_SERVICE : BlobStorageService}.
Context {CREDIT_CARD_VALIDATOR : CreditCardValidator}.
Variable engine : string → store → (list dict + string) * store.

Local Existing Instance QueryGateway.service.

Lemma page_keeps_unique uploaded clicked w :
  RecordStore.unique_numbers (db w) →
  RecordStore.unique_numbers
    (db (snd (@card_analysis_page _ _ (QueryGateway.service engine)
                uploaded clicked w))).
Proof.
  intros Hw. destruct uploaded as [file|], clicked; try done.
  rewrite page_runs_analysis.
  destruct (analysis_cases file) as (es & o & _ & Hall & _). rewrite Hall.
  destruct o as [[[ci vr]|]|e]; [|done..]. run.
  destruct (vr !! "is_valid") as [v|]; [|done]. simpl.
  destruct (truthy v); [|done]. simpl.
  destruct (ci !! "card_number") as [n|]; [|done]. simpl.
  destruct (RecordStore.get_by_card_number n (db w)) as [r|]; simpl.
  - pose proof (row_dict_truthy r) as Ht. simpl in Ht.
    by rewrite Ht, row_dict_id.
  - match goal with
    | |- context [RecordStore.insert ?rec ?s] =>
        pose proof (insert_keeps_unique rec s Hw) as Hins;
        destruct (RecordStore.insert rec s) as [[i|e] s']
    end; done.
Qed.

Lemma page_finds_existing file w ci vr v n r :
  fst (process_card_analysis file w) = Return (Some (ci, vr)) →
  vr !! "is_valid" = Some v → truthy v = true →
  ci !! "card_number" = Some n →
  RecordStore.get_by_card_number n (db w) = Some r →
  ∃ es,
    @card_analysis_page _ _ (QueryGateway.service engine) (Some file) true w
    = (Return (),
       extend (es ++ [CallGetCardByNumber n;
                      StInfo ("Card already exists in database. ID: "
                              +:+ pretty (row_id r))]) w)
    ∧ Forall (λ ev, is_store_operation ev = false) es.
Proof.
  intros Hrun Hv Htrue Hn Hr.
  destruct (analysis_cases file) as (es & o & Hes & Hall & _).
  rewrite Hall in Hrun. simpl in Hrun. subst o.
  exists (StTitle "💳 Card Analysis" :: es
          ++ [StWrite "Card Information:"; StWriteDict ci;
              StSuccess "✅ Valid Card"]).
  split.
  - rewrite page_runs_analysis, Hall. run.
    rewrite Hv. simpl. rewrite Htrue. simpl. rewrite Hn. simpl.
    rewrite Hr. simpl.
    pose proof (row_dict_truthy r) as Ht. simpl in Ht.
    rewrite Ht, row_dict_id. tidy. by rewrite <- !app_assoc.
  - constructor; [done|]. apply Forall_app. split; [done|].
    by repeat constructor.
Qed.

Lemma page_inserts_new file w ci vr v n :
  fst (process_card_analysis file w) = Return (Some (ci, vr)) →
  vr !! "is_valid" = Some v → truthy v = true →
  ci !! "card_number" = Some n →
  RecordStore.get_by_card_number n (db w) = None →
  ∃ es,
    @card_analysis_page _ _ (QueryGateway.service engine) (Some file) true w
    = (Return (),
       World (Store (rows (db w)
                     ++ [Row (next_id (db w)) (stamped ci v (clock w))])
                (next_id (db w) + 1))
         (trace w ++ es
          ++ [CallGetCardByNumber n;
              CallInsertCard (stamped ci v (clock w));
              StSuccess "Card inserted into database!"])
         (clock w))
    ∧ Forall (λ ev, is_store_operation ev = false) es.
Proof.
  intros Hrun Hv Htrue Hn Hr.
  destruct (analysis_cases file) as (es & o & Hes & Hall & _).
  rewrite Hall in Hrun. simpl in Hrun. subst o.
  exists (StTitle "💳 Card Analysis" :: es
          ++ [StWrite "Card Information:"; StWriteDict ci;
              StSuccess "✅ Valid Card"]).
  split.
  - rewrite page_runs_analysis, Hall. run.
    rewrite Hv. simpl. rewrite Htrue. simpl. rewrite Hn. simpl.
    rewrite Hr. simpl. unfold RecordStore.insert.
    fold (stamped ci v (clock w)).
    rewrite stamped_number. unfold RecordStore.number_of at 1. rewrite Hn.
    rewrite (find_none_existsb _ _ Hr). simpl.
    unfold set_db, add_event, extend. simpl.
    do 2 f_equal. by rewrite <- !app_assoc.
  - constructor; [done|]. apply Forall_app. split; [done|].
    by repeat constructor.
Qed.

End PageStoreFacts.

(** C3: the store never holds two records with the same card_number.  The
    analysis page keeps card numbers unique whatever it is given.  For a
    valid verdict, when a record with the card's number exists, the page
    shows "Card already exists in database. ID: <id>" with the id of that
    record, calls no insert and leaves the store as it was; when none exists,
    the page inserts one record, under a fresh id. *)
Theorem card_numbers_stay_unique
    `{BlobStorageService} `{CreditCardValidator}
    (engine : string → store → (list dict + string) * store) (w : world) :
  (∀ uploaded clicked,
     RecordStore.unique_numbers (db w) →
     RecordStore.unique_numbers
       (db (snd (@card_analysis_page _ _ (QueryGateway.service engine)
                   uploaded clicked w))))
  ∧ ∀ file card_info validation_result is_valid number,
      fst (process_card_analysis file w)
      = Return (Some (card_info, validation_result)) →
      validation_result !! "is_valid" = Some is_valid →
      truthy is_valid = true →
      card_info !! "card_number" = Some number →
      (∀ existing,
         RecordStore.get_by_card_number number (db w) = Some existing →
         ∃ es,
           @card_analysis_page _ _ (QueryGateway.service engine)
             (Some file) true w
           = (Return (),
              extend (es ++ [CallGetCardByNumber number;
                             StInfo ("Card already exists in database. ID: "
                                     +:+ pretty (row_id existing))]) w)
           ∧ Forall (λ ev, is_store_operation ev = false) es)
      ∧ (RecordStore.get_by_card_number number (db w) = None →
         ∃ es,
           @card_analysis_page _ _ (QueryGateway.service engine)
             (Some file) true w
           = (Return (),
              World (Store (rows (db w)
                            ++ [Row (next_id (db w))
                                  (stamped card_info is_valid (clock w))])
                       (next_id (db w) + 1))
                (trace w ++ es
                 ++ [CallGetCardByNumber number;
                     CallInsertCard (stamped card_info is_valid (clock w));
                     StSuccess "Card inserted into database!"])
                (clock w))
           ∧ Forall (λ ev, is_store_operation ev = false) es).
Proof.
  split; [intros uploaded clicked; apply page_keeps_unique|].
  intros file ci vr v n Hrun Hv Htrue Hn. split.
  - intros r Hr. by eapply page_finds_existing.
  - intros Hr. by eapply page_inserts_new.
Qed.

Lemma card_numbers_stay_unique_witness :
  RecordStore.unique_numbers
    (db (snd (@card_analysis_page Fake.working_upload Fake.accepting_validator
                (QueryGateway.service Fake.scanning_engine)
                (Some Fake.card_png) true Fake.stocked)))
  ∧ (∃ es,
       @card_analysis_page Fake.working_upload Fake.accepting_validator
         (QueryGateway.service Fake.scanning_engine)
         (Some Fake.card_png) true Fake.stocked
       = (Return (),
          extend (es ++ [CallGetCardByNumber (VStr "4532015112830366");
                         StInfo "Card already exists in database. ID: 1"])
            Fake.stocked)
       ∧ Forall (λ ev, is_store_operation ev = false) es)
  ∧ ∃ es,
      @card_analysis_page Fake.working_upload Fake.accepting_validator
        (QueryGateway.service Fake.scanning_engine)
        (Some Fake.card_png) true Fake.vacant
      = (Return (),
         World (Store [Row 1 (stamped Fake.extracted (VBool true)
                                "2030-01-15T10:00:00")] 2)
           (es ++ [CallGetCardByNumber (VStr "4532015112830366");
                   CallInsertCard (stamped Fake.extracted (VBool true)
                                     "2030-01-15T10:00:00");
                   StSuccess "Card inserted into database!"])
           "2030-01-15T10:00:00")
      ∧ Forall (λ ev, is_store_operation ev = false) es.
Proof.
  split; [|split].
  - apply (proj1 (@card_numbers_stay_unique Fake.working_upload
                    Fake.accepting_validator Fake.scanning_engine Fake.stocked)).
    unfold RecordStore.unique_numbers. simpl. apply NoDup_singleton.
  - apply (proj1 (proj2 (@card_numbers_stay_unique Fake.working_upload
                    Fake.accepting_validator Fake.scanning_engine Fake.stocked)
             Fake.card_png Fake.extracted {["is_valid" := VBool true]}
             (VBool true) (VStr "4532015112830366")
             eq_refl eq_refl eq_refl eq_refl)
           (Row 1 Fake.extracted)).
    reflexivity.
  - apply (proj2 (proj2 (@card_numbers_stay_unique Fake.working_upload
                    Fake.accepting_validator Fake.scanning_engine Fake.vacant)
             Fake.card_png Fake.extracted {["is_valid" := VBool true]}
             (VBool true) (VStr "4532015112830366")
             eq_refl eq_refl eq_refl eq_refl)).
    reflexivity.
Defined.

(** C8: on the valid, non-duplicate path the page hands to [insert_card] the
    extractor's [card_info] with two entries set, ["is_valid"] to the value
    of the verdict's ["is_valid"] and ["processed_at"] to the current
    timestamp; every other entry is the one of [card_info]. *)
Theorem inserted_record_is_stamped_card_info
    `{BlobStorageService} `{CreditCardValidator} `{DatabaseService}
    (file : uploaded_file) (w w1 w2 : world)
    (card_info validation_result : dict) (is_valid number : pyval)
    (existing : option dict) :
  process_card_analysis file (extend [StTitle "💳 Card Analysis"] w)
  = (Return (Some (card_info, validation_result)), w1) →
  validation_result !! "is_valid" = Some is_valid →
  truthy is_valid = true →
  card_info !! "card_number" = Some number →
  get_card_by_number number
    (extend [StWrite "Card Information:"; StWriteDict card_info;
             StSuccess "✅ Valid Card"; CallGetCardByNumber number] w1)
  = (Return existing, w2) →
  truthy_dict existing = false →
  let record :=
    <["processed_at" := VStr (clock w2)]> (<["is_valid" := is_valid]> card_info) in
  card_analysis_page (Some file) true w
  = (insert_card record;; emit (StSuccess "Card inserted into database!"))
      (extend [CallInsertCard record] w2)
  ∧ record !! "is_valid" = Some is_valid
  ∧ record !! "processed_at" = Some (VStr (clock w2))
  ∧ ∀ k, k ≠ "is_valid" → k ≠ "processed_at" → record !! k = card_info !! k.
Proof.
  intros Hrun Hv Htrue Hn Hget Hex record. repeat split.
  - rewrite page_runs_analysis, Hrun. run.
    rewrite Hv. simpl. rewrite Htrue. simpl. rewrite Hn. simpl.
    rewrite !add_event_extend, !extend_extend. simpl. rewrite Hget, Hex.
    simpl. by rewrite add_event_extend.
  - unfold record. by rewrite lookup_insert_ne, lookup_insert_eq.
  - unfold record. by rewrite lookup_insert_eq.
  - intros k Hk1 Hk2. unfold record. by rewrite !lookup_insert_ne.
Qed.

Lemma inserted_record_is_stamped_card_info_witness :
  let D := QueryGateway.service Fake.scanning_engine in
  let w1 :=
    snd (@process_card_analysis Fake.working_upload Fake.accepting_validator
           Fake.card_png (extend [StTitle "💳 Card Analysis"] Fake.vacant)) in
  let w2 :=
    extend [StWrite "Card Information:"; StWriteDict Fake.extracted;
            StSuccess "✅ Valid Card";
            CallGetCardByNumber (VStr "4532015112830366")] w1 in
  let record :=
    <["processed_at" := VStr "2030-01-15T10:00:00"]>
      (<["is_valid" := VBool true]> Fake.extracted) in
  @card_analysis_page Fake.working_upload Fake.accepting_validator D
    (Some Fake.card_png) true Fake.vacant
  = (@insert_card D record;; emit (StSuccess "Card inserted into database!"))
      (extend [CallInsertCard record] w2)
  ∧ record !! "is_valid" = Some (VBool true)
  ∧ record !! "processed_at" = Some (VStr "2030-01-15T10:00:00")
  ∧ ∀ k, k ≠ "is_valid" → k ≠ "processed_at" →
         record !! k = Fake.extracted !! k.
Proof.
  intros D w1 w2 record.
  apply (@inserted_record_is_stamped_card_info Fake.working_upload
           Fake.accepting_validator D Fake.card_png Fake.vacant w1 w2
           Fake.extracted {["is_valid" := VBool true]} (VBool true)
           (VStr "4532015112830366") None); reflexivity.
Defined.

Example new_card_is_persisted :
  db (snd (@card_analysis_page Fake.working_upload Fake.accepting_validator
             (QueryGateway.service Fake.scanning_engine)
             (Some Fake.card_png) true Fake.vacant))
  = Store [Row 1 (stamped Fake.extracted (VBool true) "2030-01-15T10:00:00")] 2.
Proof. reflexivity. Qed.

(** * Further properties of [app.py] *)

(** ** [process_card_analysis] *)

Section AnalysisOutcomes.

Context {BLOB_STORAGE_SERVICE : BlobStorageService}.
Context {CREDIT_CARD_VALIDATOR : CreditCardValidator}.

(** The six ways a run of [process_card_analysis] can go. *)
Lemma analysis_outcomes file :
  (∃ e, upload_blob (getvalue file) (name file) = Raise e
        ∧ ∀ w, process_card_analysis file w = handled e (upload_events file) w)
  ∨ (∃ url, upload_blob (getvalue file) (name file) = Return url
        ∧ truthy url = false
        ∧ ∀ w, process_card_analysis file w
               = (Return None,
                  extend (upload_events file
                          ++ [StError "Error uploading image to Blob Storage."]) w))
  ∨ (∃ url e, upload_blob (getvalue file) (name file) = Return url
        ∧ truthy url = true
        ∧ detect_credit_card_info_from_url url = Raise e
        ∧ ∀ w, process_card_analysis file w
               = handled e (upload_events file ++ [CallDetect url]) w)
  ∨ (∃ url info, upload_blob (getvalue file) (name file) = Return url
        ∧ truthy url = true
        ∧ detect_credit_card_info_from_url url = Return info
        ∧ truthy_dict info = false
        ∧ ∀ w, process_card_analysis file w
               = (Return None,
                  extend (upload_events file
                          ++ [CallDetect url; StError "Unable to analyze card."]) w))
  ∨ (∃ url info e, upload_blob (getvalue file) (name file) = Return url
        ∧ truthy url = true
        ∧ detect_credit_card_info_from_url url = Return (Some info)
        ∧ info ≠ ∅
        ∧ validate_card_info info = Raise e
        ∧ ∀ w, process_card_analysis file w
               = handled e (upload_events file
                            ++ [CallDetect url; CallValidate info]) w)
  ∨ (∃ url info result, upload_blob (getvalue file) (name file) = Return url
        ∧ truthy url = true
        ∧ detect_credit_card_info_from_url url = Return (Some info)
        ∧ info ≠ ∅
        ∧ validate_card_info info = Return result
        ∧ ∀ w, process_card_analysis file w
               = (Return (Some (info, result)),
                  extend (upload_events file
                          ++ [CallDetect url; CallValidate info]) w)).
Proof.
  destruct (upload_blob (getvalue file) (name file)) as [url|e] eqn:Hup.
  2:{ left. exists e. split; [done|].
      intros w. unfold process_card_analysis, handled, upload_events. run.
      rewrite Hup. destruct (isinstance_Exception e); by tidy. }
  destruct (truthy url) eqn:Hurl.
  2:{ right; left. exists url. split_and!; [done..|].
      intros w. by eapply upload_falsy. }
  destruct (detect_credit_card_info_from_url url) as [info|e] eqn:Hdet.
  2:{ right; right; left. exists url, e. split_and!; [done..|].
      intros w. unfold process_card_analysis, handled, upload_events. run.
      rewrite Hup, Hurl. simpl. rewrite Hdet.
      destruct (isinstance_Exception e); by tidy. }
  destruct (truthy_dict info) eqn:Hinfo.
  2:{ right; right; right; left. exists url, info. split_and!; [done..|].
      intros w. by eapply detect_falsy. }
  destruct info as [info|]; [|done]. simpl in Hinfo.
  apply negb_true_iff, bool_decide_eq_false in Hinfo.
  destruct (validate_card_info info) as [result|e] eqn:Hval.
  - do 5 right. exists url, info, result. split_and!; [done..|].
    intros w. by apply analysis_returns.
  - do 4 right; left. exists url, info, e. split_and!; [done..|].
    intros w. unfold process_card_analysis, handled, upload_events. run.
    rewrite Hup, Hurl. simpl. rewrite Hdet. simpl.
    rewrite bool_decide_eq_false_2 by done. simpl. rewrite Hval.
    destruct (isinstance_Exception e); by tidy.
Qed.

End AnalysisOutcomes.

(** X1: whatever the upload, the extraction and the validation do, return
    or raise, [process_card_analysis] never reads or writes the database:
    none of the events it adds is a store operation, and the store and the
    clock are the ones it started with. *)
Theorem process_card_analysis_frame
    `{BlobStorageService} `{CreditCardValidator}
    (file : uploaded_file) (w : world) :
  ∃ es,
    snd (process_card_analysis file w) = extend es w
    ∧ Forall (λ ev, is_store_operation ev = false) es
    ∧ db (snd (process_card_analysis file w)) = db w
    ∧ clock (snd (process_card_analysis file w)) = clock w.
Proof.
  destruct (analysis_outcomes file)
    as [(e & _ & Hrun) | [(url & _ & _ & Hrun) | [(url & e & _ & _ & _ & Hrun)
       | [(url & info & _ & _ & _ & _ & Hrun)
       | [(url & info & e & _ & _ & _ & _ & _ & Hrun)
       | (url & info & result & _ & _ & _ & _ & _ & Hrun)]]]]];
    rewrite Hrun; unfold handled, upload_events;
    try destruct (isinstance_Exception e); simpl;
    eexists; (split; [reflexivity|]); split_and!; try done;
    by repeat constructor.
Qed.

(** X2: a falsy result is handled like [None].  An upload that returns an
    empty string (or any other false value) gives the upload error without
    any extraction call; an extraction that returns an empty dictionary gives
    "Unable to analyze card." without any validation call.  The result is
    [None] in both cases. *)
Theorem falsy_results_stop_analysis
    `{BlobStorageService} `{CreditCardValidator}
    (file : uploaded_file) (w : world) :
  (∀ url,
     upload_blob (getvalue file) (name file) = Return url →
     truthy url = false →
     process_card_analysis file w
     = (Return None,
        extend [StImage file "Card Image"; StSpinner "Processing...";
                CallUploadBlob (getvalue file) (name file);
                StError "Error uploading image to Blob Storage."] w))
  ∧ (∀ url info,
       upload_blob (getvalue file) (name file) = Return url →
       truthy url = true →
       detect_credit_card_info_from_url url = Return info →
       truthy_dict info = false →
       process_card_analysis file w
       = (Return None,
          extend [StImage file "Card Image"; StSpinner "Processing...";
                  CallUploadBlob (getvalue file) (name file);
                  CallDetect url; StError "Unable to analyze card."] w)).
Proof.
  split.
  - intros url Hup Hurl. by apply (upload_falsy file w url).
  - intros url info Hup Hurl Hdet Hinfo.
    by apply (detect_falsy file w url info).
Qed.

Lemma falsy_results_stop_analysis_witness :
  @process_card_analysis Stub.empty_url_upload Fake.accepting_validator
    Fake.card_png Fake.vacant
  = (Return None,
     extend [StImage Fake.card_png "Card Image"; StSpinner "Processing...";
             CallUploadBlob "PNG" "card.png";
             StError "Error uploading image to Blob Storage."] Fake.vacant)
  ∧ @process_card_analysis Fake.working_upload Stub.empty_extraction
      Fake.card_png Fake.vacant
    = (Return None,
       extend [StImage Fake.card_png "Card Image"; StSpinner "Processing...";
               CallUploadBlob "PNG" "card.png";
               CallDetect (VStr "https://blob/card.png");
               StError "Unable to analyze card."] Fake.vacant).
Proof.
  split.
  - apply (proj1 (@falsy_results_stop_analysis Stub.empty_url_upload
                    Fake.accepting_validator Fake.card_png Fake.vacant)
             (VStr "")); reflexivity.
  - apply (proj2 (@falsy_results_stop_analysis Fake.working_upload
                    Stub.empty_extraction Fake.card_png Fake.vacant)
             (VStr "https://blob/card.png") (Some ∅)); reflexivity.
Defined.

(** X3: whenever [process_card_analysis] returns a pair, the upload gave a
    true url, the extraction on that url gave a non-empty [card_info] and
    the validation of that [card_info] returned: the pair is that
    [card_info] with its own validation result, and the upload, the
    extraction and the validation were called once each, in this order. *)
Theorem returned_pair_is_validated_extraction
    `{BlobStorageService} `{CreditCardValidator}
    (file : uploaded_file) (w : world) (card_info validation_result : dict) :
  fst (process_card_analysis file w)
  = Return (Some (card_info, validation_result)) →
  ∃ url,
    upload_blob (getvalue file) (name file) = Return url
    ∧ truthy url = true
    ∧ detect_credit_card_info_from_url url = Return (Some card_info)
    ∧ card_info ≠ ∅
    ∧ validate_card_info card_info = Return validation_result
    ∧ snd (process_card_analysis file w)
      = extend [StImage file "Card Image"; StSpinner "Processing...";
                CallUploadBlob (getvalue file) (name file);
                CallDetect url; CallValidate card_info] w.
Proof.
  intros Hfst.
  destruct (analysis_outcomes file)
    as [(e & _ & Hrun) | [(url & _ & _ & Hrun) | [(url & e & _ & _ & _ & Hrun)
       | [(url & info & _ & _ & _ & _ & Hrun)
       | [(url & info & e & _ & _ & _ & _ & _ & Hrun)
       | (url & info & result & Hup & Hurl & Hdet & Hinfo & Hval & Hrun)]]]]];
    rewrite Hrun in Hfst; unfold handled in Hfst;
    try destruct (isinstance_Exception e); simpl in Hfst; try discriminate.
  injection Hfst as -> ->. exists url. rewrite Hrun. by split_and!.
Qed.

Lemma returned_pair_is_validated_extraction_witness :
  ∃ url,
    @upload_blob Fake.working_upload "PNG" "card.png" = Return url
    ∧ truthy url = true
    ∧ @detect_credit_card_info_from_url Fake.accepting_validator url
      = Return (Some Fake.extracted)
    ∧ Fake.extracted ≠ ∅
    ∧ @validate_card_info Fake.accepting_validator Fake.extracted
      = Return {["is_valid" := VBool true]}
    ∧ snd (@process_card_analysis Fake.working_upload
             Fake.accepting_validator Fake.card_png Fake.vacant)
      = extend [StImage Fake.card_png "Card Image"; StSpinner "Processing...";
                CallUploadBlob "PNG" "card.png";
                CallDetect url; CallValidate Fake.extracted] Fake.vacant.
Proof.
  apply (@returned_pair_is_validated_extraction Fake.working_upload
           Fake.accepting_validator Fake.card_png Fake.vacant
           Fake.extracted {["is_valid" := VBool true]}).
  reflexivity.
Defined.

(** ** [card_analysis_page] *)

(** X4: without an uploaded file, or without the button pressed, the page
    shows its title and nothing else: no upload, no extraction, no
    validation and no database call is made. *)
Theorem no_analysis_without_click
    `{BlobStorageService} `{CreditCardValidator} `{DatabaseService}
    (uploaded : option uploaded_file) (analyze_clicked : bool) (w : world) :
  uploaded = None ∨ analyze_clicked = false →
  card_analysis_page uploaded analyze_clicked w
  = (Return (), extend [StTitle "💳 Card Analysis"] w).
Proof.
  intros [-> | ->]; [done|]. by destruct uploaded.
Qed.

Lemma no_analysis_without_click_witness :
  @card_analysis_page Fake.working_upload Fake.accepting_validator
    Stub.offline_database (Some Fake.card_png) false Fake.vacant
  = (Return (), extend [StTitle "💳 Card Analysis"] Fake.vacant).
Proof.
  apply (@no_analysis_without_click Fake.working_upload
           Fake.accepting_validator Stub.offline_database
           (Some Fake.card_png) false Fake.vacant).
  right. reflexivity.
Defined.

(** X5: the page reads the verdict with [validation_result["is_valid"]] and
    the number with [card_info["card_number"]], outside any [try].  A verdict
    without ["is_valid"] raises [KeyError] right after the card information
    is shown; a valid verdict for a [card_info] without ["card_number"]
    raises [KeyError] after "Valid Card" was shown.  In both cases no store
    operation was made. *)
Theorem missing_keys_raise_KeyError
    `{BlobStorageService} `{CreditCardValidator} `{DatabaseService}
    (file : uploaded_file) (w : world) (card_info validation_result : dict) :
  fst (process_card_analysis file w)
  = Return (Some (card_info, validation_result)) →
  (validation_result !! "is_valid" = None →
   ∃ es,
     card_analysis_page (Some file) true w
     = (Raise (Exc KeyError "is_valid"),
        extend (es ++ [StWrite "Card Information:"; StWriteDict card_info]) w)
     ∧ Forall (λ ev, is_store_operation ev = false) es)
  ∧ (∀ is_valid,
       validation_result !! "is_valid" = Some is_valid →
       truthy is_valid = true →
       card_info !! "card_number" = None →
       ∃ es,
         card_analysis_page (Some file) true w
         = (Raise (Exc KeyError "card_number"),
            extend (es ++ [StWrite "Card Information:"; StWriteDict card_info;
                           StSuccess "✅ Valid Card"]) w)
         ∧ Forall (λ ev, is_store_operation ev = false) es).
Proof.
  intros Hrun.
  destruct (analysis_cases file) as (es & o & Hes & Hall & _).
  rewrite Hall in Hrun. simpl in Hrun. subst o. split.
  - intros Hkey. exists (StTitle "💳 Card Analysis" :: es). split.
    + rewrite page_runs_analysis, Hall. run. rewrite Hkey. tidy.
      by rewrite <- ?app_assoc.
    + by constructor.
  - intros v Hkey Htrue Hnum. exists (StTitle "💳 Card Analysis" :: es). split.
    + rewrite page_runs_analysis, Hall. run. rewrite Hkey. simpl.
      rewrite Htrue. simpl. rewrite Hnum. tidy. by rewrite <- ?app_assoc.
    + by constructor.
Qed.

Lemma missing_keys_raise_KeyError_witness :
  (∃ es,
     @card_analysis_page Fake.working_upload Stub.mute_validator
       Stub.offline_database (Some Fake.card_png) true Fake.vacant
     = (Raise (Exc KeyError "is_valid"),
        extend (es ++ [StWrite "Card Information:"; StWriteDict Fake.extracted])
          Fake.vacant)
     ∧ Forall (λ ev, is_store_operation ev = false) es)
  ∧ ∃ es,
      @card_analysis_page Fake.working_upload Stub.numberless_validator
        Stub.offline_database (Some Fake.card_png) true Fake.vacant
      = (Raise (Exc KeyError "card_number"),
         extend (es ++ [StWrite "Card Information:";
                        StWriteDict {["bank_name" := VStr "Bank X"]};
                        StSuccess "✅ Valid Card"]) Fake.vacant)
      ∧ Forall (λ ev, is_store_operation ev = false) es.
Proof.
  split.
  - apply (proj1 (@missing_keys_raise_KeyError Fake.working_upload
                    Stub.mute_validator Stub.offline_database Fake.card_png
                    Fake.vacant Fake.extracted {["valid" := VBool true]}
                    eq_refl)).
    reflexivity.
  - apply (proj2 (@missing_keys_raise_KeyError Fake.working_upload
                    Stub.numberless_validator Stub.offline_database
                    Fake.card_png Fake.vacant
                    {["bank_name" := VStr "Bank X"]}
                    {["is_valid" := VBool true]} eq_refl)
             (VBool true)); reflexivity.
Defined.

(** X6: for any database service, when the lookup returns a non-empty row
    the page never calls [insert_card]: it shows the row's ["id"], rendered
    with [str], and ends; a row without ["id"] raises [KeyError]. *)
Theorem existing_card_is_not_inserted
    `{BlobStorageService} `{CreditCardValidator} `{DatabaseService}
    (file : uploaded_file) (w w1 w2 : world)
    (card_info validation_result existing : dict) (is_valid number : pyval) :
  process_card_analysis file (extend [StTitle "💳 Card Analysis"] w)
  = (Return (Some (card_info, validation_result)), w1) →
  validation_result !! "is_valid" = Some is_valid →
  truthy is_valid = true →
  card_info !! "card_number" = Some number →
  get_card_by_number number
    (extend [StWrite "Card Information:"; StWriteDict card_info;
             StSuccess "✅ Valid Card"; CallGetCardByNumber number] w1)
  = (Return (Some existing), w2) →
  existing ≠ ∅ →
  card_analysis_page (Some file) true w
  = match existing !! "id" with
    | Some id =>
        (Return (),
         extend [StInfo ("Card already exists in database. ID: " +:+ str id)] w2)
    | None => (Raise (Exc KeyError "id"), w2)
    end.
Proof.
  intros Hrun Hv Htrue Hn Hget Hex.
  rewrite page_runs_analysis, Hrun. run.
  rewrite Hv. simpl. rewrite Htrue. simpl. rewrite Hn. simpl.
  rewrite !add_event_extend, !extend_extend. simpl. rewrite Hget. simpl.
  rewrite bool_decide_eq_false_2 by done. simpl.
  destruct (existing !! "id"); by tidy.
Qed.

Lemma existing_card_is_not_inserted_witness :
  let w1 :=
    snd (@process_card_analysis Fake.working_upload Fake.accepting_validator
           Fake.card_png (extend [StTitle "💳 Card Analysis"] Fake.vacant)) in
  let w2 :=
    extend [StWrite "Card Information:"; StWriteDict Fake.extracted;
            StSuccess "✅ Valid Card";
            CallGetCardByNumber (VStr "4532015112830366")] w1 in
  @card_analysis_page Fake.working_upload Fake.accepting_validator
    Stub.idless_database (Some Fake.card_png) true Fake.vacant
  = (Raise (Exc KeyError "id"), w2).
Proof.
  intros w1 w2.
  exact (@existing_card_is_not_inserted Fake.working_upload
           Fake.accepting_validator Stub.idless_database Fake.card_png
           Fake.vacant w1 w2 Fake.extracted {["is_valid" := VBool true]}
           {["card_number" := VStr "4532015112830366"]}
           (VBool true) (VStr "4532015112830366")
           eq_refl eq_refl eq_refl eq_refl eq_refl
           (bool_decide_eq_false_1
              ({["card_number" := VStr "4532015112830366"]} =@{dict} ∅)
              eq_refl)).
Defined.

(** X7: the page has no handler around the database calls.  If the lookup
    raises, the page raises the same exception and nothing more is shown; if
    the lookup finds nothing and [insert_card] raises, the page raises the
    same exception and "Card inserted into database!" is not shown. *)
Theorem database_errors_leave_the_page
    `{BlobStorageService} `{CreditCardValidator} `{DatabaseService}
    (file : uploaded_file) (w w1 : world)
    (card_info validation_result : dict) (is_valid number : pyval) :
  process_card_analysis file (extend [StTitle "💳 Card Analysis"] w)
  = (Return (Some (card_info, validation_result)), w1) →
  validation_result !! "is_valid" = Some is_valid →
  truthy is_valid = true →
  card_info !! "card_number" = Some number →
  (∀ e w2,
     get_card_by_number number
       (extend [StWrite "Card Information:"; StWriteDict card_info;
                StSuccess "✅ Valid Card"; CallGetCardByNumber number] w1)
     = (Raise e, w2) →
     card_analysis_page (Some file) true w = (Raise e, w2))
  ∧ (∀ existing w2 e w3,
       get_card_by_number number
         (extend [StWrite "Card Information:"; StWriteDict card_info;
                  StSuccess "✅ Valid Card"; CallGetCardByNumber number] w1)
       = (Return existing, w2) →
       truthy_dict existing = false →
       insert_card
         (<["processed_at" := VStr (clock w2)]>
            (<["is_valid" := is_valid]> card_info))
         (extend [CallInsertCard
                    (<["processed_at" := VStr (clock w2)]>
                       (<["is_valid" := is_valid]> card_info))] w2)
       = (Raise e, w3) →
       card_analysis_page (Some file) true w = (Raise e, w3)).
Proof.
  intros Hrun Hv Htrue Hn. split.
  - intros e w2 Hget.
    rewrite page_runs_analysis, Hrun. run.
    rewrite Hv. simpl. rewrite Htrue. simpl. rewrite Hn. simpl.
    rewrite !add_event_extend, !extend_extend. simpl. by rewrite Hget.
  - intros existing w2 e w3 Hget Hex Hins.
    rewrite page_runs_analysis, Hrun. run.
    rewrite Hv. simpl. rewrite Htrue. simpl. rewrite Hn. simpl.
    rewrite !add_event_extend, !extend_extend. simpl. rewrite Hget, Hex.
    simpl. by rewrite add_event_extend, Hins.
Qed.

Lemma database_errors_leave_the_page_witness :
  fst (@card_analysis_page Fake.working_upload Fake.accepting_validator
         Stub.offline_database (Some Fake.card_png) true Fake.vacant)
  = Raise (Exc ExecutionError "database is locked")
  ∧ fst (@card_analysis_page Fake.working_upload Fake.accepting_validator
           Stub.readonly_database (Some Fake.card_png) true Fake.vacant)
    = Raise (Exc ExecutionError "attempt to write a readonly database").
Proof.
  pose (w1 :=
    snd (@process_card_analysis Fake.working_upload Fake.accepting_validator
           Fake.card_png (extend [StTitle "💳 Card Analysis"] Fake.vacant))).
  pose (w2 :=
    extend [StWrite "Card Information:"; StWriteDict Fake.extracted;
            StSuccess "✅ Valid Card";
            CallGetCardByNumber (VStr "4532015112830366")] w1).
  split.
  - rewrite (proj1 (@database_errors_leave_the_page Fake.working_upload
                      Fake.accepting_validator Stub.offline_database
                      Fake.card_png Fake.vacant w1 Fake.extracted
                      {["is_valid" := VBool true]} (VBool true)
                      (VStr "4532015112830366")
                      eq_refl eq_refl eq_refl eq_refl)
               (Exc ExecutionError "database is locked") w2 eq_refl).
    reflexivity.
  - rewrite (proj2 (@database_errors_leave_the_page Fake.working_upload
                      Fake.accepting_validator Stub.readonly_database
                      Fake.card_png Fake.vacant w1 Fake.extracted
                      {["is_valid" := VBool true]} (VBool true)
                      (VStr "4532015112830366")
                      eq_refl eq_refl eq_refl eq_refl)
               None w2
               (Exc ExecutionError "attempt to write a readonly database")
               (extend [CallInsertCard
                          (stamped Fake.extracted (VBool true)
                             "2030-01-15T10:00:00")] w2)
               eq_refl eq_refl eq_refl).
    reflexivity.
Defined.

(** ** [database_query_page] *)

Section ListingFacts.

Context {DATABASE_SERVICE : DatabaseService}.

(** X8: the listing at the top of the query page, whatever the database
    service does.  No rows give the "No data found" message, rows give the
    table with its download button, and an exception that is an instance of
    [Exception] (a [ValueError] included) is shown as "Error loading all
    data" and the page goes on to the custom query section; only an
    exception outside [Exception] leaves the page.  Without the button
    pressed the query text is not used and [execute_custom_query] is not
    called. *)
Theorem listing_outcomes_classified
    (query : string) (w w1 : world) (o : outcome (list dict)) :
  get_all_cards
    (extend [StTitle "🔍 Database Query";
             StSubheader "📊 All Records in `credit_cards` Table";
             CallGetAllCards] w)
  = (o, w1) →
  database_query_page query false w
  = match o with
    | Return [] =>
        (Return (),
         extend [StInfo "⚠️ No data found in `credit_cards` table.";
                 StMarkdown Rule; StSubheader "🔎 Custom Queries";
                 StMarkdown QueryExamples] w1)
    | Return all_data =>
        (Return (),
         extend [StDataframe all_data;
                 StDownloadButton "💾 Download All Data (CSV)" all_data
                   "all_credit_cards_data.csv";
                 StMarkdown Rule; StSubheader "🔎 Custom Queries";
                 StMarkdown QueryExamples] w1)
    | Raise e =>
        if isinstance_Exception e then
          (Return (),
           extend [StError ("Error loading all data: " +:+ exc_message e);
                   StMarkdown Rule; StSubheader "🔎 Custom Queries";
                   StMarkdown QueryExamples] w1)
        else (Raise e, w1)
    end.
Proof.
  intros Hget. unfold database_query_page. run.
  rewrite !add_event_extend, !extend_extend. simpl. rewrite Hget.
  destruct o as [[|r rs]|e]; [by tidy..|].
  destruct (isinstance_Exception e); by tidy.
Qed.

(** X9: a listing that fails does not keep the custom query from running.
    When [get_all_cards] raises an instance of [Exception] and the button is
    pressed, the page shows the loading error, calls [execute_custom_query]
    with the text as typed, and shows its rows or the "No results" message. *)
Theorem query_runs_after_failed_listing
    (query : string) (w w1 w2 : world) (e : exc) (results : list dict) :
  get_all_cards
    (extend [StTitle "🔍 Database Query";
             StSubheader "📊 All Records in `credit_cards` Table";
             CallGetAllCards] w)
  = (Raise e, w1) →
  isinstance_Exception e = true →
  execute_custom_query query
    (extend [StError ("Error loading all data: " +:+ exc_message e);
             StMarkdown Rule; StSubheader "🔎 Custom Queries";
             StMarkdown QueryExamples; CallExecuteCustomQuery query] w1)
  = (Return results, w2) →
  database_query_page query true w
  = (Return (),
     extend (if truthy_list results
             then [StDataframe results;
                   StDownloadButton "💾 Download Results (CSV)" results
                     "query_results.csv"]
             else [StInfo "🔍 No results found for the query."]) w2).
Proof.
  intros Hget He Hquery. unfold database_query_page. run.
  rewrite !add_event_extend, !extend_extend. simpl. rewrite Hget, He.
  tidy. rewrite Hquery. destruct results; by tidy.
Qed.

End ListingFacts.

Lemma listing_outcomes_classified_witness :
  @database_query_page Stub.offline_database "SELECT 1" false Fake.vacant
  = (Return (),
     extend [StError "Error loading all data: database is locked";
             StMarkdown Rule; StSubheader "🔎 Custom Queries";
             StMarkdown QueryExamples]
       (extend [StTitle "🔍 Database Query";
                StSubheader "📊 All Records in `credit_cards` Table";
                CallGetAllCards] Fake.vacant)).
Proof.
  exact (@listing_outcomes_classified Stub.offline_database "SELECT 1"
           Fake.vacant _ (Raise (Exc ExecutionError "database is locked"))
           eq_refl).
Defined.

Lemma query_runs_after_failed_listing_witness :
  ∃ w2,
    @database_query_page Stub.offline_database "SELECT 1" true Fake.vacant
    = (Return (), extend [StInfo "🔍 No results found for the query."] w2).
Proof.
  eexists.
  exact (@query_runs_after_failed_listing Stub.offline_database "SELECT 1"
           Fake.vacant _ _ (Exc ExecutionError "database is locked") []
           eq_refl eq_refl eq_refl).
Defined.

(** ** The shell: [render_sidebar], [main], [load_lottie], [home_page] *)

Section ShellFacts.

Import Shell.

Context {REQUESTS : Requests}.
Context {LOTTIE : LottieComponent}.
Context {BLOB_STORAGE_SERVICE : BlobStorageService}.
Context {CREDIT_CARD_VALIDATOR : CreditCardValidator}.
Context {DATABASE_SERVICE : DatabaseService}.

Lemma lookup_key_None {A} k (d : list (string * A)) :
  lookup_key k d = None ↔ k ∉ d.*1.
Proof.
  induction d as [|[k' v] d IH]; simpl.
  - split; [intros _; apply not_elem_of_nil|done].
  - rewrite not_elem_of_cons. destruct (decide (k = k')) as [->|Hne].
    + split; [done|]. by intros [? _].
    + rewrite IH. split; [by intros ?|by intros [_ ?]].
Qed.

Lemma lookup_key_is_Some {A} k (d : list (string * A)) :
  k ∈ d.*1 → is_Some (lookup_key k d).
Proof.
  intros Hk. destruct (lookup_key k d) eqn:E; [by eexists|].
  by apply lookup_key_None in E.
Qed.

Lemma handlers_cover_menu i : (page_handlers i).*1 = menu_options.*1.
Proof. reflexivity. Qed.

(** The value of the menu is one of its entries. *)
Lemma menu_value_is_entry selected :
  radio_value (menu_options.*1) selected ∈ menu_options.*1.
Proof.
  unfold radio_value. case_bool_decide; [done|]. simpl. left.
Qed.

(** The sidebar never fails: every option has its icon. *)
Lemma render_sidebar_runs selected s :
  render_sidebar selected s
  = (Return (radio_value (menu_options.*1) selected),
     more [SidebarRadio "Menu"
             ["Home"; "Card Analysis"; "Database Query"; "Documentation";
              "About"]
             ["Home 🏠"; "Card Analysis 💳"; "Database Query 🔍";
              "Documentation 📚"; "About ℹ️"]] s).
Proof. reflexivity. Qed.

Lemma main_runs_handler i s :
  main i s
  = match lookup_key (radio_value (menu_options.*1) (selected_menu i))
            (page_handlers i) with
    | Some handler => handler (more chrome s)
    | None => (Return (), more chrome s)
    end.
Proof.
  unfold main, mbind, S_bind.
  cbn -[lookup_key page_handlers render_sidebar].
  rewrite render_sidebar_runs. cbn -[lookup_key page_handlers radio_value].
  destruct (lookup_key _ (page_handlers i));
    unfold more, chrome; simpl; by rewrite <- app_assoc.
Qed.

Lemma home_page_runs s :
  home_page s
  = match requests_get lottie_url with
    | Raise e =>
        (Raise e,
         more [OnPage (StTitle "🌟 Simplifying Card Validation in E-commerce");
               HttpGet lottie_url] s)
    | Return r =>
        match (if negb (status_code r =? 200) then Return JNull
               else json_of r) with
        | Return animation =>
            match st_lottie animation 300 with
            | Return _ =>
                (Return (),
                 more [OnPage (StTitle "🌟 Simplifying Card Validation in E-commerce");
                       HttpGet lottie_url; StLottie animation 300;
                       StMarkdownText HomeText] s)
            | Raise e =>
                (Raise e,
                 more [OnPage (StTitle "🌟 Simplifying Card Validation in E-commerce");
                       HttpGet lottie_url] s)
            end
        | Raise e =>
            (Raise e,
             more [OnPage (StTitle "🌟 Simplifying Card Validation in E-commerce");
                   HttpGet lottie_url] s)
        end
    end.
Proof.
  unfold home_page, load_lottie, mbind, S_bind, on_page, show, call, unit_S,
    emit, more.
  simpl. destruct (requests_get lottie_url) as [r|e]; simpl.
  - destruct (negb (status_code r =? 200)); simpl.
    + destruct (st_lottie JNull 300); simpl; by rewrite <- !app_assoc.
    + destruct (json_of r) as [animation|e]; simpl;
        [destruct (st_lottie animation 300); simpl|];
        by rewrite <- !app_assoc.
  - by rewrite <- !app_assoc.
Qed.

Lemma more_more es1 es2 s : more es2 (more es1 s) = more (es1 ++ es2) s.
Proof. unfold more. simpl. by rewrite app_assoc. Qed.

End ShellFacts.

(** X10: every entry of the sidebar menu has a handler, and [main] runs the
    page that goes with the selected entry, after the page configuration and
    the sidebar (whose labels are the entries followed by their icons):
    "Card Analysis" runs [card_analysis_page], "Database Query" runs
    [database_query_page], and the three others the static pages. *)
Theorem main_runs_selected_page
    `{Shell.Requests} `{Shell.LottieComponent} `{BlobStorageService}
    `{CreditCardValidator} `{DatabaseService}
    (i : Shell.inputs) (s : Shell.app) :
  (∀ selected, selected ∈ Shell.menu_options.*1 →
               is_Some (Shell.lookup_key selected (Shell.page_handlers i)))
  ∧ (Shell.selected_menu i = "Home" →
     Shell.main i s = Shell.home_page (Shell.more Shell.chrome s))
  ∧ (Shell.selected_menu i = "Card Analysis" →
     Shell.main i s
     = Shell.on_page
         (card_analysis_page (Shell.uploaded i) (Shell.analyze_clicked i))
         (Shell.more Shell.chrome s))
  ∧ (Shell.selected_menu i = "Database Query" →
     Shell.main i s
     = Shell.on_page
         (database_query_page (Shell.query_text i) (Shell.execute_clicked i))
         (Shell.more Shell.chrome s))
  ∧ (Shell.selected_menu i = "Documentation" →
     Shell.main i s = Shell.documentation_page (Shell.more Shell.chrome s))
  ∧ (Shell.selected_menu i = "About" →
     Shell.main i s = Shell.about_page (Shell.more Shell.chrome s)).
Proof.
  split.
  { intros selected Hsel. apply lookup_key_is_Some.
    by rewrite handlers_cover_menu. }
  split_and!; intros Hsel; rewrite main_runs_handler, Hsel; reflexivity.
Qed.

Lemma main_runs_selected_page_witness :
  @Shell.main Stub.found Stub.lenient_player Fake.working_upload
    Fake.accepting_validator (QueryGateway.service Fake.scanning_engine)
    (Stub.idle "Documentation") Stub.blank
  = (Return (),
     Shell.more (Shell.chrome
                 ++ [Shell.OnPage (StTitle "📚 Documentation");
                     Shell.StMarkdownText Shell.DocumentationText])
       Stub.blank)
  ∧ is_Some (Shell.lookup_key "About"
               (@Shell.page_handlers Stub.found Stub.lenient_player
                  Fake.working_upload Fake.accepting_validator
                  (QueryGateway.service Fake.scanning_engine)
                  (Stub.idle "Documentation"))).
Proof.
  split.
  - rewrite (proj1 (proj2 (proj2 (proj2 (proj2
               (@main_runs_selected_page Stub.found Stub.lenient_player
                  Fake.working_upload Fake.accepting_validator
                  (QueryGateway.service Fake.scanning_engine)
                  (Stub.idle "Documentation") Stub.blank))))) eq_refl).
    reflexivity.
  - apply (proj1 (@main_runs_selected_page Stub.found Stub.lenient_player
                    Fake.working_upload Fake.accepting_validator
                    (QueryGateway.service Fake.scanning_engine)
                    (Stub.idle "Documentation") Stub.blank) "About").
    apply (bool_decide_eq_true_1 ("About" ∈ Shell.menu_options.*1)).
    reflexivity.
Defined.

(** X12: [load_lottie] gives [None] for every status other than 200 without
    looking at the body, and with status 200 the parsed body; [home_page]
    hands either to [st_lottie] as it is.  If [st_lottie] accepts it the
    page is rendered in full; if [st_lottie] raises, [home_page] raises that
    exception and neither the animation nor the text is shown. *)
Theorem home_page_by_status
    `{Shell.Requests} `{Shell.LottieComponent}
    (s : Shell.app) (r : Shell.response) (animation : Shell.json) :
  Shell.requests_get Shell.lottie_url = Return r →
  (Shell.status_code r ≠ 200 ∧ animation = Shell.JNull)
  ∨ (Shell.status_code r = 200 ∧ Shell.json_of r = Return animation) →
  Shell.home_page s
  = match Shell.st_lottie animation 300 with
    | Return _ =>
        (Return (),
         Shell.more
           [Shell.OnPage (StTitle "🌟 Simplifying Card Validation in E-commerce");
            Shell.HttpGet Shell.lottie_url;
            Shell.StLottie animation 300;
            Shell.StMarkdownText Shell.HomeText] s)
    | Raise e =>
        (Raise e,
         Shell.more
           [Shell.OnPage (StTitle "🌟 Simplifying Card Validation in E-commerce");
            Shell.HttpGet Shell.lottie_url] s)
    end.
Proof.
  intros Hget Hstatus. rewrite home_page_runs, Hget.
  destruct Hstatus as [[Hcode ->]|[Hcode Hjson]].
  - apply Z.eqb_neq in Hcode. by rewrite Hcode.
  - by rewrite Hcode, Hjson.
Qed.

Lemma home_page_by_status_witness :
  @Shell.home_page Stub.not_found Stub.strict_player Stub.blank
  = (Raise (Exc RuntimeError "no animation to show"),
     Shell.more
       [Shell.OnPage (StTitle "🌟 Simplifying Card Validation in E-commerce");
        Shell.HttpGet Shell.lottie_url] Stub.blank)
  ∧ @Shell.home_page Stub.found Stub.strict_player Stub.blank
    = (Return (),
       Shell.more
         [Shell.OnPage (StTitle "🌟 Simplifying Card Validation in E-commerce");
          Shell.HttpGet Shell.lottie_url;
          Shell.StLottie Stub.animation 300;
          Shell.StMarkdownText Shell.HomeText] Stub.blank).
Proof.
  split.
  - apply (@home_page_by_status Stub.not_found Stub.strict_player Stub.blank
             (Shell.Response 404 (Raise (Exc ValueError "Expecting value")))
             Shell.JNull eq_refl).
    left. split; [simpl; lia|reflexivity].
  - apply (@home_page_by_status Stub.found Stub.strict_player Stub.blank
             (Shell.Response 200 (Return Stub.animation))
             Stub.animation eq_refl).
    right. split; reflexivity.
Defined.

(** X13: nothing catches a failure of the animation download.  When
    [requests.get] raises, or the status is 200 and the body does not parse,
    the home page raises that exception after its title, the animation and
    the text are not shown, and [main] raises it too, even when it is an
    instance of [Exception]. *)
Theorem download_failure_leaves_home_page
    `{Shell.Requests} `{Shell.LottieComponent} `{BlobStorageService}
    `{CreditCardValidator} `{DatabaseService}
    (i : Shell.inputs) (s : Shell.app) (e : exc) :
  Shell.requests_get Shell.lottie_url = Raise e
  ∨ (∃ r, Shell.requests_get Shell.lottie_url = Return r
          ∧ Shell.status_code r = 200
          ∧ Shell.json_of r = Raise e) →
  Shell.home_page s
  = (Raise e,
     Shell.more
       [Shell.OnPage (StTitle "🌟 Simplifying Card Validation in E-commerce");
        Shell.HttpGet Shell.lottie_url] s)
  ∧ (Shell.selected_menu i = "Home" →
     Shell.main i s
     = (Raise e,
        Shell.more
          (Shell.chrome
           ++ [Shell.OnPage
                 (StTitle "🌟 Simplifying Card Validation in E-commerce");
               Shell.HttpGet Shell.lottie_url]) s)).
Proof.
  intros Hfail.
  assert (∀ s', Shell.home_page s'
    = (Raise e,
       Shell.more
         [Shell.OnPage (StTitle "🌟 Simplifying Card Validation in E-commerce");
          Shell.HttpGet Shell.lottie_url] s')) as Hhome.
  { intros s'. rewrite home_page_runs.
    destruct Hfail as [Hget | (r & Hget & Hcode & Hjson)]; rewrite Hget;
      [done|]. by rewrite Hcode, Hjson. }
  split; [apply Hhome|].
  intros Hsel. rewrite main_runs_handler, Hsel. simpl.
  by rewrite Hhome, more_more.
Qed.

Lemma download_failure_leaves_home_page_witness :
  @Shell.main Stub.unreachable Stub.strict_player Fake.working_upload
    Fake.accepting_validator Stub.offline_database (Stub.idle "Home") Stub.blank
  = (Raise (Exc RuntimeError "connection refused"),
     Shell.more
       (Shell.chrome
        ++ [Shell.OnPage
              (StTitle "🌟 Simplifying Card Validation in E-commerce");
            Shell.HttpGet Shell.lottie_url]) Stub.blank).
Proof.
  apply (proj2 (@download_failure_leaves_home_page Stub.unreachable
                  Stub.strict_player Fake.working_upload
                  Fake.accepting_validator Stub.offline_database
                  (Stub.idle "Home") Stub.blank
                  (Exc RuntimeError "connection refused")
                  (or_introl eq_refl))).
  reflexivity.
Defined.

(** X14: the pages other than "Card Analysis" and "Database Query" never
    touch the store: whatever the services and the download do, after
    [main] the store and the clock are unchanged and nothing shown comes
    from a store operation. *)
Theorem static_pages_leave_store
    `{Shell.Requests} `{Shell.LottieComponent} `{BlobStorageService}
    `{CreditCardValidator} `{DatabaseService}
    (i : Shell.inputs) (s : Shell.app) :
  Shell.selected_menu i ≠ "Card Analysis" →
  Shell.selected_menu i ≠ "Database Query" →
  ∃ es,
    snd (Shell.main i s) = Shell.more (Shell.chrome ++ es) s
    ∧ Forall (λ ev, Shell.is_store_event ev = false) es
    ∧ Shell.store_of (snd (Shell.main i s)) = Shell.store_of s
    ∧ Shell.time (snd (Shell.main i s)) = Shell.time s.
Proof.
  intros Hca Hdq. rewrite main_runs_handler.
  assert (Shell.radio_value (Shell.menu_options.*1) (Shell.selected_menu i)
          ≠ "Card Analysis"
          ∧ Shell.radio_value (Shell.menu_options.*1) (Shell.selected_menu i)
            ≠ "Database Query") as [Hca' Hdq'].
  { unfold Shell.radio_value. by case_bool_decide. }
  revert Hca' Hdq'.
  generalize (Shell.radio_value (Shell.menu_options.*1) (Shell.selected_menu i)).
  intros value Hca' Hdq'. unfold Shell.page_handlers.
  cbn [Shell.lookup_key]. repeat case_decide; try done.
  - rewrite home_page_runs.
    destruct (Shell.requests_get Shell.lottie_url) as [r|e];
      [destruct (if negb (Shell.status_code r =? 200) then _ else _)
         as [animation|e];
         [destruct (Shell.st_lottie animation 300)|]|];
      rewrite more_more; eexists; (split; [reflexivity|]);
      split_and!; try done; by repeat constructor.
  - exists [Shell.OnPage (StTitle "📚 Documentation");
            Shell.StMarkdownText Shell.DocumentationText].
    split; [unfold Shell.more; simpl; by rewrite <- !app_assoc|].
    split_and!; try done; by repeat constructor.
  - exists [Shell.OnPage (StTitle "ℹ️ About");
            Shell.StMarkdownText Shell.AboutText].
    split; [unfold Shell.more; simpl; by rewrite <- !app_assoc|].
    split_and!; try done; by repeat constructor.
  - exists []. rewrite app_nil_r. split_and!; try done; constructor.
Qed.

Lemma static_pages_leave_store_witness :
  ∃ es,
    snd (@Shell.main Stub.unreachable Stub.strict_player Fake.working_upload
           Fake.accepting_validator Stub.offline_database
           (Stub.idle "About") Stub.blank)
    = Shell.more (Shell.chrome ++ es) Stub.blank
    ∧ Forall (λ ev, Shell.is_store_event ev = false) es
    ∧ Shell.store_of (snd (@Shell.main Stub.unreachable Stub.strict_player
                             Fake.working_upload Fake.accepting_validator
                             Stub.offline_database
                             (Stub.idle "About") Stub.blank))
      = Shell.store_of Stub.blank
    ∧ Shell.time (snd (@Shell.main Stub.unreachable Stub.strict_player
                         Fake.working_upload Fake.accepting_validator
                         Stub.offline_database
                         (Stub.idle "About") Stub.blank))
      = Shell.time Stub.blank.
Proof.
  apply (@static_pages_leave_store Stub.unreachable Stub.strict_player
           Fake.working_upload Fake.accepting_validator Stub.offline_database
           (Stub.idle "About") Stub.blank).
  - apply (bool_decide_eq_false_1 ("About" = "Card Analysis")). reflexivity.
  - apply (bool_decide_eq_false_1 ("About" = "Database Query")). reflexivity.
Defined.
